(** * GitHub API helper functions ([.github/scripts/GitHub.py])

    A shallow embedding of the helper module and the properties of its
    reviewer resolution, merge-commit lookup and reviewer request.

    Conventions of the embedding.
    - A Python [str] is a [string]; a character is a code point below 256.
    - The collaborators ([RunCmd], [RunPythonScript], [requests.get],
      [requests.post]) are functions on an abstract world: each call takes
      the world, answers, and leaves a new world.  They always answer; a
      collaborator that itself raises is outside the model.
    - Everything observable is appended to a trace: each collaborator call
      with its arguments and its answer, and each line printed.
    - A Python list that is passed by reference lives in a store, and the
      callee receives its location. *)

From Stdlib Require Import ZArith Lia Ascii String.
From Equations Require Import Equations.
From Equations.Prop Require Import Logic.
From stdpp Require Import base strings list gmap pretty.

Open Scope string_scope.
Open Scope list_scope.

(** ** Python's [str] methods used by the module *)

Module str.

(** [str.isspace] on one character: the code points U+0009..U+000D,
    U+001C..U+0020, U+0085 and U+00A0. *)
Definition isspace (c : ascii) : bool :=
  let n := nat_of_ascii c in
  (((9 <=? n) && (n <=? 13)) || ((28 <=? n) && (n <=? 32))
   || (n =? 133) || (n =? 160))%nat.

Fixpoint lstrip (s : string) : string :=
  match s with
  | EmptyString => EmptyString
  | String c s' => if isspace c then lstrip s' else s
  end.

Fixpoint rstrip (s : string) : string :=
  match s with
  | EmptyString => EmptyString
  | String c s' =>
      match rstrip s' with
      | EmptyString => if isspace c then EmptyString else String c EmptyString
      | r => String c r
      end
  end.

(** [s.strip()] *)
Definition strip (s : string) : string := rstrip (lstrip s).

(** The line boundaries of [str.splitlines]: LF, VT, FF, CR, FS, GS, RS
    and NEL; CR followed by LF is one boundary. *)
Definition is_linebreak (c : ascii) : bool :=
  let n := nat_of_ascii c in
  (((10 <=? n) && (n <=? 13)) || ((28 <=? n) && (n <=? 30))
   || (n =? 133))%nat.

(** [s.splitlines()]: the lines without their boundaries; no empty last
    line after a final boundary. *)
Fixpoint splitlines (s : string) : list string :=
  match s with
  | EmptyString => []
  | String c s' =>
      if is_linebreak c then
        match c, s' with
        | "013"%char, String "010"%char s'' => EmptyString :: splitlines s''
        | _, _ => EmptyString :: splitlines s'
        end
      else
        match splitlines s' with
        | [] => [String c EmptyString]
        | l :: ls => String c l :: ls
        end
  end.

(** [sep.join(l)] *)
Definition join (sep : string) (l : list string) : string :=
  String.concat sep l.

(** [s[:n]] *)
Definition prefix (n : nat) (s : string) : string := substring 0 n s.

(** [s[n:]] *)
Fixpoint suffix (n : nat) (s : string) : string :=
  match n, s with
  | S n', String _ s' => suffix n' s'
  | _, _ => s
  end.

(** [needle in s] for two strings. *)
Fixpoint contains (needle s : string) : bool :=
  String.prefix needle s
  || match s with
     | EmptyString => false
     | String _ s' => contains needle s'
     end.

End str.

(** ** [re.findall(r"\[(.*?)\]", s)] *)

Module re.

(** After the opening bracket: the lazy group [(.*?)] takes characters
    other than line feed, and stops at the first closing bracket. *)
Fixpoint lazy_group (s : string) : option string :=
  match s with
  | EmptyString => None
  | String c s' =>
      if Ascii.eqb c "]" then Some EmptyString
      else if Ascii.eqb c "010" then None
      else String c <$> lazy_group s'
  end.

(** A match of the pattern that starts at the first character of [s]:
    the text of group 1. *)
Definition match_at (s : string) : option string :=
  match s with
  | String "["%char s' => lazy_group s'
  | _ => None
  end.

(** The scan from left to right: where the pattern matches, group 1 is
    kept and the scan goes on behind the match ([skip] counts the
    characters of the match still to pass); elsewhere it moves on by one
    character. *)
Fixpoint scan (skip : nat) (s : string) : list string :=
  match s with
  | EmptyString => []
  | String _ s' =>
      match skip with
      | S k => scan k s'
      | O =>
          match match_at s with
          | Some g => g :: scan (S (String.length g)) s'
          | None => scan 0 s'
          end
      end
  end.

Definition findall (s : string) : list string := scan 0 s.

End re.

(** ** [collections.OrderedDict] *)

Module OrderedDict.

(** The items in insertion order. *)
Definition t (V : Type) : Type := list (string * V).

(** [d[k] = v]: a key already present keeps its place and takes the new
    value; a new key goes to the end. *)
Fixpoint setitem {V} (k : string) (v : V) (d : t V) : t V :=
  match d with
  | [] => [(k, v)]
  | (k', v') :: d' =>
      if decide (k' = k) then (k', v) :: d' else (k', v') :: setitem k v d'
  end.

(** [OrderedDict.fromkeys(iterable)]: every key is set to [None], in the
    order of the iterable. *)
Definition fromkeys (iterable : list string) : t unit :=
  foldl (λ d k, setitem k tt d) [] iterable.

(** [list(d)]: the keys in order. *)
Definition keys {V} (d : t V) : list string := d.*1.

End OrderedDict.

(** ** Values decoded from JSON, responses, exceptions *)

#[local] Set Warnings "-register-all".
Inductive json : Type :=
| JNull
| JBool (b : bool)
| JNum (literal : string)
| JStr (s : string)
| JArr (items : list json)
| JObj (members : list (string * json)).

(** The member of an object under a key. *)
Fixpoint member (key : string) (members : list (string * json)) : option json :=
  match members with
  | [] => None
  | (k, v) :: members' => if decide (k = key) then Some v else member key members'
  end.

Definition headers : Type := list (string * string).

(** What the module reads of a [requests.Response]: [json_body] is the
    decoded body, [None] when the body is not JSON. *)
Record Response : Type := mkResponse
  { status_code : Z; reason : string; json_body : option json }.

Inductive exn : Type :=
| HTTPError | JSONDecodeError | KeyError | AttributeError | TypeError
| ValueError.

Inductive outcome (A : Type) : Type :=
| Return (a : A)
| Raise (e : exn).
Arguments Return {A} a.
Arguments Raise {A} e.

(** How a block of statements ends: it runs to its end with the value of
    its variables, or it executes [return r]. *)
Inductive ending (A R : Type) : Type :=
| Fallthrough (a : A)
| Returned (r : R).
Arguments Fallthrough {A R} a.
Arguments Returned {A R} r.

Definition loc : Type := positive.

Inductive event : Type :=
| RunCmd_call (cmd parameters workingdir : string) (ret : Z) (outstream : string)
| RunPythonScript_call (pythonfile params workingdir : string) (ret : Z)
    (outstream : string)
| requests_get_call (url : string) (hdrs : headers) (response : Response)
| requests_post_call (url : string) (data : json) (hdrs : headers)
    (response : Response)
| print_call (line : string).

Definition is_print (ev : event) : bool :=
  match ev with print_call _ => true | _ => false end.

Definition is_RunCmd (ev : event) : bool :=
  match ev with RunCmd_call _ _ _ _ _ => true | _ => false end.

(** The line feed, and the text of an integer in an f-string. *)
Definition LF : string := String "010" EmptyString.

Definition str_of_int (n : Z) : string := pretty n.

(** ** The state of a run and its monad *)

Section Program.

Variable World : Type.

(** The collaborators.  [run_cmd cmd parameters workingdir] and
    [run_python_script pythonfile params workingdir] answer with the exit
    status and the text written to [outstream]. *)
Variable run_cmd : string → string → string → World → (Z * string) * World.
Variable run_python_script :
  string → string → string → World → (Z * string) * World.
Variable http_get : string → headers → World → Response * World.
Variable http_post : string → json → headers → World → Response * World.

(** Python's [repr] of a value that is not a string, as an f-string
    prints it. *)
Variable repr : json → string.

Record state : Type := mkState
  { world : World;
    store : gmap loc (list string);
    trace : list event }.

Definition M (A : Type) : Type := state → outcome A * state.

#[global] Instance M_ret : MRet M := λ A a st, (Return a, st).

#[global] Instance M_bind : MBind M := λ A B f m st,
  match m st with
  | (Return a, st') => f a st'
  | (Raise e, st') => (Raise e, st')
  end.

Definition raise {A} (e : exn) : M A := λ st, (Raise e, st).

(** [try: body except HTTPError: handler] *)
Definition try_except_HTTPError {A} (body handler : M A) : M A := λ st,
  match body st with
  | (Raise HTTPError, st') => handler st'
  | r => r
  end.

Definition emit (ev : event) (st : state) : state :=
  {| world := world st; store := store st; trace := trace st ++ [ev] |}.

Definition print (line : string) : M unit := λ st,
  (Return (), emit (print_call line) st).

Definition RunCmd (cmd parameters workingdir : string) : M (Z * string) :=
  λ st,
    let '(r, w) := run_cmd cmd parameters workingdir (world st) in
    (Return r,
     emit (RunCmd_call cmd parameters workingdir r.1 r.2)
       {| world := w; store := store st; trace := trace st |}).

Definition RunPythonScript (pythonfile params workingdir : string)
  : M (Z * string) :=
  λ st,
    let '(r, w) := run_python_script pythonfile params workingdir (world st) in
    (Return r,
     emit (RunPythonScript_call pythonfile params workingdir r.1 r.2)
       {| world := w; store := store st; trace := trace st |}).

Definition requests_get (url : string) (hdrs : headers) : M Response :=
  λ st,
    let '(r, w) := http_get url hdrs (world st) in
    (Return r,
     emit (requests_get_call url hdrs r)
       {| world := w; store := store st; trace := trace st |}).

Definition requests_post (url : string) (data : json) (hdrs : headers)
  : M Response :=
  λ st,
    let '(r, w) := http_post url data hdrs (world st) in
    (Return r,
     emit (requests_post_call url data hdrs r)
       {| world := w; store := store st; trace := trace st |}).

(** [response.raise_for_status()]: [HTTPError] for a client or server
    error status, 400 to 599. *)
Definition raise_for_status (response : Response) : M unit :=
  if bool_decide (400 ≤ status_code response < 600)%Z
  then raise HTTPError else mret ().

(** [response.json()] *)
Definition response_json (response : Response) : M json :=
  match json_body response with
  | Some j => mret j
  | None => raise JSONDecodeError
  end.

(** [v[key]] *)
Definition getitem (key : string) (v : json) : M json :=
  match v with
  | JObj members =>
      match member key members with
      | Some x => mret x
      | None => raise KeyError
      end
  | _ => raise TypeError
  end.

(** [v.get(key)] *)
Definition get (key : string) (v : json) : M json :=
  match v with
  | JObj members => mret (default JNull (member key members))
  | _ => raise AttributeError
  end.

(** [v.strip()] *)
Definition strip (v : json) : M string :=
  match v with
  | JStr s => mret (str.strip s)
  | _ => raise AttributeError
  end.

(** [needle in v] for a string [needle]. *)
Definition contains (needle : string) (v : json) : M bool :=
  match v with
  | JStr s => mret (str.contains needle s)
  | JArr items =>
      mret (existsb (λ x, match x with
                          | JStr s => bool_decide (s = needle)
                          | _ => false
                          end) items)
  | JObj members => mret (bool_decide (is_Some (member needle members)))
  | _ => raise TypeError
  end.

(** [f"{v}"] *)
Definition format (v : json) : string :=
  match v with
  | JStr s => s
  | JNull => "None"
  | JBool true => "True"
  | JBool false => "False"
  | _ => repr v
  end.

(** The list object at a location; the locations the module is given hold
    one. *)
Definition deref (l : loc) : M (list string) := λ st,
  (Return (store st !!! l), st).

(** [l.remove(x)]: the first [x] is taken out; [ValueError] when there is
    none. *)
Fixpoint remove_first (x : string) (l : list string) : option (list string) :=
  match l with
  | [] => None
  | y :: l' =>
      if decide (y = x) then Some l' else (y ::.) <$> remove_first x l'
  end.

Definition list_remove (l : loc) (x : string) : M unit := λ st,
  match remove_first x (store st !!! l) with
  | Some l' =>
      (Return (),
       {| world := world st; store := <[l := l']> (store st);
          trace := trace st |})
  | None => (Raise ValueError, st)
  end.

(** [while pr_author in user_names: user_names.remove(pr_author)]; every
    turn shortens the list at [user_names]. *)
Equations? while_in_remove (pr_author : string) (user_names : loc)
  (st : state) : outcome unit * state
  by wf (length (store st !!! user_names)) lt :=
  while_in_remove pr_author user_names st
    with inspect (bool_decide (pr_author ∈ store st !!! user_names)) := {
    | exist _ true _
        with inspect (list_remove user_names pr_author st) := {
        | exist _ (Return _, st') Hrm =>
            while_in_remove pr_author user_names st'
        | exist _ (Raise e, st') _ => (Raise e, st') }
    | exist _ false _ => (Return (), st) }.
Proof.
  unfold list_remove in Hrm.
  destruct (remove_first pr_author (store st !!! user_names)) as [l'|] eqn:E;
    simplify_eq/=.
  rewrite lookup_total_insert_eq.
  revert l' E. generalize (store st !!! user_names).
  induction l as [|y l IH]; intros l' E; simplify_eq/=.
  destruct (decide (y = pr_author)); simplify_eq/=; [lia|].
  destruct (remove_first pr_author l) eqn:E'; simplify_eq/=.
  specialize (IH _ eq_refl). lia.
Qed.

(** ** The functions of the module *)

Definition api_headers (token : string) : headers :=
  [("Authorization", "Bearer " +:+ token);
   ("Accept", "application/vnd.github.v3+json")].

Definition leave_pr_comment (token owner repo pr_number comment_body : string)
  : M unit :=
  let url := "https://api.github.com/repos/" +:+ owner +:+ "/" +:+ repo
             +:+ "/issues/" +:+ pr_number +:+ "/comments" in
  let headers := api_headers token in
  let data := JObj [("body", JStr comment_body)] in
  response ← requests_post url data headers;
  raise_for_status response.

(** The body of [for commit_sha in commits], with [raw_reviewers] as
    collected so far. *)
Fixpoint for_commit_sha (workspace_path maintainer_file_path : string)
  (commits : list string) (raw_reviewers : list string)
  : M (ending (list string) (list string)) :=
  match commits with
  | [] => mret (Fallthrough raw_reviewers)
  | commit_sha :: commits' =>
      '(cmd_ret, reviewer_stream_buffer) ←
        RunPythonScript maintainer_file_path ("-g " +:+ commit_sha)
          workspace_path;
      if bool_decide (cmd_ret ≠ 0%Z) then
        print ("::error title=Reviewer Lookup Error!::"
               +:+ "Error calling GetMaintainer.py: ["
               +:+ str_of_int cmd_ret +:+ "]: " +:+ reviewer_stream_buffer);;
        mret (Returned [])
      else
        let commit_reviewers := reviewer_stream_buffer in
        let matches := re.findall commit_reviewers in
        if bool_decide (matches = []) then mret (Returned [])
        else
          print ("::debug title=Commit " +:+ str.prefix 7 commit_sha
                 +:+ " Reviewer(s)::" +:+ str.join ", " matches);;
          for_commit_sha workspace_path maintainer_file_path commits'
            (raw_reviewers ++ matches)
  end.

(** The first statement: the commits of the range. *)
Definition range_commits (workspace_path range_start range_end : string)
  : M (ending (list string) (list string)) :=
  if bool_decide (range_start = range_end) then
    mret (Fallthrough [range_start])
  else
    '(cmd_ret, commit_stream_buffer) ←
      RunCmd "git"
        ("log --format=format:%H " +:+ range_start +:+ ".." +:+ range_end)
        workspace_path;
    if bool_decide (cmd_ret ≠ 0%Z) then
      print ("::error title=Commit Lookup Error!::"
             +:+ "Error getting branch commits: ["
             +:+ str_of_int cmd_ret +:+ "]: " +:+ commit_stream_buffer);;
      mret (Returned [])
    else mret (Fallthrough (str.splitlines commit_stream_buffer)).

(** From [raw_reviewers = []] to the end of the function. *)
Definition reviewers_of_commits
  (workspace_path maintainer_file_path : string) (commits : list string)
  : M (list string) :=
  raw ← for_commit_sha workspace_path maintainer_file_path commits [];
  match raw with
  | Returned r => mret r
  | Fallthrough raw_reviewers =>
      let reviewers :=
        OrderedDict.keys
          (OrderedDict.fromkeys (str.strip <$> raw_reviewers)) in
      print ("::debug title=Total Reviewer Set::"
             +:+ str.join ", " reviewers);;
      mret reviewers
  end.

(** [range_start] and [range_end] default to ["master"] and ["HEAD"]. *)
Definition get_reviewers_for_range
  (workspace_path maintainer_file_path range_start range_end : string)
  : M (list string) :=
  commits ← range_commits workspace_path range_start range_end;
  match commits with
  | Returned r => mret r
  | Fallthrough commits =>
      reviewers_of_commits workspace_path maintainer_file_path commits
  end.

Definition get_pr_sha (token owner repo pr_number : string) : M json :=
  let url := "https://api.github.com/repos/" +:+ owner +:+ "/" +:+ repo
             +:+ "/pulls/" +:+ pr_number in
  let headers := api_headers token in
  response ← requests_get url headers;
  checked ← try_except_HTTPError
              (raise_for_status response;; mret (Fallthrough ()))
              (print ("::error title=HTTP Error!::"
                      +:+ "Error getting PR Commit Info: "
                      +:+ reason response);;
               mret (Returned (JStr EmptyString)));
  match checked with
  | Returned r => mret r
  | Fallthrough _ =>
      body ← response_json response;
      commit_sha ← getitem "merge_commit_sha" body;
      print ("::debug title=PR " +:+ pr_number +:+ " Commit SHA::"
             +:+ format commit_sha);;
      mret commit_sha
  end.

(** The [except requests.exceptions.HTTPError] block of
    [add_reviewers_to_pr], for the response to the request. *)
Definition request_failed (token owner repo pr_number : string)
  (user_names : loc) (response : Response) : M unit :=
  is_collaborator_error ←
    (if bool_decide (status_code response = 422%Z) then
       body ← response_json response;
       message ← get "message" body;
       contains "Reviews may only be requested from collaborators" message
     else mret false);
  if (is_collaborator_error : bool) then
    body ← response_json response;
    message ← get "message" body;
    print ("::error title=User is not a Collaborator!::"
           +:+ format message);;
    requested ← deref user_names;
    leave_pr_comment token owner repo pr_number
      ("&#9888; **WARNING: Cannot add reviewers**: A user specified as a "
       +:+ "reviewer for this PR is not a collaborator "
       +:+ "of the edk2 repository. Please add them as a collaborator to the "
       +:+ "repository and re-request the review." +:+ LF +:+ LF
       +:+ "Users requested:" +:+ LF +:+ str.join ", " requested)
  else if bool_decide (status_code response = 422%Z) then
    print ("::error title=Invalid Request!::The request is invalid. "
           +:+ "Verify the API request string.")
  else mret ().

Definition add_reviewers_to_pr (token owner repo pr_number : string)
  (user_names : loc) : M unit :=
  let headers := api_headers token in
  let pr_author_url := "https://api.github.com/repos/" +:+ owner +:+ "/"
                       +:+ repo +:+ "/pulls/" +:+ pr_number in
  let url := "https://api.github.com/repos/" +:+ owner +:+ "/" +:+ repo
             +:+ "/pulls/" +:+ pr_number +:+ "/requested_reviewers" in
  response ← requests_get pr_author_url headers;
  if bool_decide (status_code response ≠ 200%Z) then
    print ("::error title=HTTP Error!::Error getting PR author: "
           +:+ reason response)
  else
    body ← response_json response;
    user ← get "user" body;
    login ← get "login" user;
    pr_author ← strip login;
    (while_in_remove pr_author user_names : M unit);;
    reviewers ← deref user_names;
    let data := JObj [("reviewers", JArr (JStr <$> reviewers))] in
    response ← requests_post url data headers;
    try_except_HTTPError (raise_for_status response)
      (request_failed token owner repo pr_number user_names response).

End Program.

Arguments world {World} s.
Arguments store {World} s.
Arguments trace {World} s.
Arguments mkState {World} world store trace.
Arguments emit {World} ev st.
Arguments for_commit_sha {World} run_python_script
  workspace_path maintainer_file_path commits raw_reviewers.
Arguments range_commits {World} run_cmd workspace_path range_start range_end.
Arguments reviewers_of_commits {World} run_python_script
  workspace_path maintainer_file_path commits.
Arguments get_reviewers_for_range {World} run_cmd run_python_script
  workspace_path maintainer_file_path range_start range_end.
Arguments get_pr_sha {World} http_get repr token owner repo pr_number.
Arguments add_reviewers_to_pr {World} http_get http_post repr
  token owner repo pr_number user_names.
Arguments leave_pr_comment {World} http_post
  token owner repo pr_number comment_body.
Arguments request_failed {World} http_post repr
  token owner repo pr_number user_names response.
Arguments while_in_remove {World} pr_author user_names st.
Arguments list_remove {World} l x st.
Arguments deref {World} l st.
Arguments print {World} line st.
Arguments raise_for_status {World} response st.
Arguments response_json {World} response st.
Arguments requests_get {World} http_get url hdrs st.
Arguments requests_post {World} http_post url data hdrs st.
Arguments RunCmd {World} run_cmd cmd parameters workingdir st.
Arguments RunPythonScript {World} run_python_script pythonfile params
  workingdir st.
Arguments try_except_HTTPError {World A} body handler st.
Arguments raise {World A} e st.
Arguments getitem {World} key v st.
Arguments get {World} key v st.
Arguments strip {World} v st.
Arguments contains {World} needle v st.

(** ** A world that answers from a script

    The subprocess answers and the HTTP responses are queues; a call takes
    the next answer of its queue.  An empty queue answers with status 1,
    resp. 500. *)

Module Scripted.

Record World : Type := mkWorld
  { cmds : list (Z * string);
    scripts : list (Z * string);
    responses : list Response }.

Definition run_cmd (cmd parameters workingdir : string) (w : World)
  : (Z * string) * World :=
  match cmds w with
  | [] => ((1%Z, EmptyString), w)
  | a :: rest => (a, mkWorld rest (scripts w) (responses w))
  end.

Definition run_python_script (pythonfile params workingdir : string)
  (w : World) : (Z * string) * World :=
  match scripts w with
  | [] => ((1%Z, EmptyString), w)
  | a :: rest => (a, mkWorld (cmds w) rest (responses w))
  end.

Definition next_response (w : World) : Response * World :=
  match responses w with
  | [] => (mkResponse 500 "Internal Server Error" None, w)
  | r :: rest => (r, mkWorld (cmds w) (scripts w) rest)
  end.

Definition http_get (url : string) (hdrs : headers) (w : World)
  : Response * World := next_response w.

Definition http_post (url : string) (data : json) (hdrs : headers)
  (w : World) : Response * World := next_response w.

(** No container is printed in the runs below. *)
Definition repr (v : json) : string := EmptyString.

Definition initial (w : World) (objects : gmap loc (list string))
  : state World := mkState w objects [].

Definition get_reviewers_for_range :=
  get_reviewers_for_range run_cmd run_python_script.

Definition get_pr_sha := get_pr_sha http_get repr.

Definition add_reviewers_to_pr :=
  add_reviewers_to_pr http_get http_post repr.

End Scripted.

(** ** Notions the properties are stated with *)

(** [l.index(x)]: the position of the first [x] in [l]. *)
Definition index (x : string) (l : list string) : option nat :=
  fst <$> list_find (x =.) l.

(** The first [x] of [l] comes before the first [y] of [l]. *)
Definition occurs_before (x y : string) (l : list string) : Prop :=
  ∃ i j, index x l = Some i ∧ index y l = Some j ∧ i < j.

(** A string of whitespace only, as [str.strip] understands it. *)
Fixpoint blank (s : string) : bool :=
  match s with
  | EmptyString => true
  | String c s' => str.isspace c && blank s'
  end.

(** A string without line feed. *)
Fixpoint one_line (s : string) : bool :=
  match s with
  | EmptyString => true
  | String c s' => negb (Ascii.eqb c "010") && one_line s'
  end.

(** One run of the maintainer tool as the trace records it. *)
Record invocation : Type := mkInvocation
  { inv_params : string; inv_ret : Z; inv_out : string }.

Definition script_calls (tr : list event) : list invocation :=
  omap (λ ev, match ev with
              | RunPythonScript_call _ params _ ret out =>
                  Some (mkInvocation params ret out)
              | _ => None
              end) tr.

(** The invocation is one the loop gives up on: a status other than zero, or
    an output without a bracketed token. *)
Definition failed (c : invocation) : bool :=
  bool_decide (inv_ret c ≠ 0%Z) || bool_decide (re.findall (inv_out c) = []).

(** The bracketed tokens of all invocations of a trace, in order. *)
Definition match_stream (tr : list event) : list string :=
  c ← script_calls tr; re.findall (inv_out c).

(** The lines printed in a trace. *)
Definition printed (tr : list event) : list string :=
  omap (λ ev, match ev with print_call line => Some line | _ => None end) tr.

(** What a computation appends to the trace when run from [st]. *)
Definition events_of {World A} (m : M World A) (st : state World)
  : list event :=
  drop (length (trace st)) (trace (m st).2).

(** [part] occurs in [s]. *)
Definition substring_of (part s : string) : Prop :=
  ∃ before after, s = before +:+ part +:+ after.

(** What [OrderedDict.fromkeys] does to the list of keys: a key not yet seen
    goes to the end. *)
Definition add_key (seen : list string) (k : string) : list string :=
  if decide (k ∈ seen) then seen else seen ++ [k].

(** An event behind the request for reviewers: a printed line, or the
    comment left on the pull request. *)
Definition is_aftermath (ev : event) : Prop :=
  match ev with
  | print_call _ => True
  | requests_post_call _ (JObj [("body", JStr _)]) _ _ => True
  | _ => False
  end.

(** A computation that leaves the store alone and adds only such events. *)
Definition quiet {World A} (m : M World A) : Prop :=
  ∀ st, ∃ evs,
    trace (m st).2 = trace st ++ evs
    ∧ store (m st).2 = store st
    ∧ Forall is_aftermath evs.

(** ** Runs on scripted worlds *)

Module Runs.

Import Scripted.

(** The range master..HEAD lists the commits A and B. *)
Definition two_commits : state World :=
  initial
    (mkWorld [(0%Z, "A" +:+ LF +:+ "B")]
       [(0%Z, "Reviewed-by: [alice] [bob]");
        (0%Z, "Reviewed-by: [bob] [carol]")] [])
    ∅.

(** The listing of the commits fails. *)
Definition bad_revision : state World :=
  initial (mkWorld [(128%Z, "fatal: bad revision")] [] []) ∅.

(** Three commits; the maintainer tool fails on the second one. *)
Definition second_commit_fails : state World :=
  initial
    (mkWorld [(0%Z, "A" +:+ LF +:+ "B" +:+ LF +:+ "C")]
       [(0%Z, "[alice]"); (2%Z, "Traceback"); (0%Z, "[carol]")] [])
    ∅.

(** One commit; the maintainer tool names nobody. *)
Definition nobody_named : state World :=
  initial (mkWorld [] [(0%Z, "No maintainers found")] []) ∅.

(** One commit; the output is a blank between brackets. *)
Definition blank_token : state World :=
  initial (mkWorld [] [(0%Z, "[ ]")] []) ∅.

(** One commit; the output is a line feed between brackets. *)
Definition line_feed_token : state World :=
  initial (mkWorld [] [(0%Z, "[" +:+ LF +:+ "]")] []) ∅.

Definition not_modified : Response := mkResponse 304 "Not Modified" None.

Definition not_found : Response := mkResponse 404 "Not Found" None.

Definition pull_request : Response :=
  mkResponse 200 "OK"
    (Some (JObj [("merge_commit_sha", JStr "0c5a1f3");
                 ("user", JObj [("login", JStr "bob")])])).

Definition answers (responses : list Response) : state World :=
  initial (mkWorld [] [] responses) ∅.

(** The pull request of bob; the candidates are at location 1. *)
Definition candidates : state World :=
  initial
    (mkWorld [] [] [pull_request; mkResponse 201 "Created" None])
    {[ 1%positive := ["alice"; "bob"; "carol"; "bob"] ]}.

End Runs.

(** ** Downloading a file

    The files are a map from paths to their text; [open(path, "w")] and
    [write] replace the text at the path, and a write that the file system
    refuses is outside the model.  [text response] is [response.text].
    The request always answers, so [response] is bound when the handler
    reads its reason. *)

Section Download.

Variable World : Type.
Variable http_get : string → headers → World → Response * World.
Variable text : Response → string.

Record disk : Type := mkDisk
  { process : state World; files : gmap string string }.

(** [headers = {}], and the [Authorization] entry [if token:], that is for
    a token that is neither [None] nor empty. *)
Definition download_headers (token : option string) : headers :=
  match token with
  | Some t =>
      if bool_decide (t = EmptyString) then []
      else [("Authorization", "Bearer " +:+ t)]
  | None => []
  end.

(** [token] defaults to [None]. *)
Definition download_gh_file (github_url local_path : string)
  (token : option string) (d : disk) : outcome unit * disk :=
  let headers := download_headers token in
  let fetched : M World (ending Response unit) :=
    response ← requests_get http_get github_url headers;
    try_except_HTTPError
      (raise_for_status response;; mret (Fallthrough response))
      (print ("::error title=HTTP Error!::Error downloading "
              +:+ github_url +:+ ": " +:+ reason response);;
       mret (Returned ())) in
  match fetched (process d) with
  | (Return (Fallthrough response), st) =>
      (Return (), mkDisk st (<[local_path := text response]> (files d)))
  | (Return (Returned r), st) => (Return r, mkDisk st (files d))
  | (Raise e, st) => (Raise e, mkDisk st (files d))
  end.

End Download.

Arguments mkDisk {World} process files.
Arguments process {World} d.
Arguments files {World} d.
Arguments download_gh_file {World} http_get text github_url local_path token d.

(** ** A maintainer tool that answers by the commit alone *)

Module Fixed.

(** The answers to [-g A], [-g B] and [-g C]; any other commit fails. *)
Definition answer (params : string) : Z * string :=
  if bool_decide (params = "-g A") then (0%Z, "R: [alice] [ bob ]")
  else if bool_decide (params = "-g B") then (0%Z, "R: [bob] [carol]")
  else if bool_decide (params = "-g C") then (0%Z, "nobody")
  else (1%Z, "unknown revision").

Definition tool (commit : string) : Z * string := answer ("-g " +:+ commit).

Definition run_python_script (pythonfile params workingdir : string) (w : unit)
  : (Z * string) * unit := (answer params, w).

Definition run_cmd (cmd parameters workingdir : string) (w : unit)
  : (Z * string) * unit := ((0%Z, "A" +:+ LF +:+ "B"), w).

Definition initial : state unit := mkState () ∅ [].

End Fixed.

(** ** More notions for the properties *)

(** Every character of the string passes the test. *)
Fixpoint all_chars (f : ascii → bool) (s : string) : bool :=
  match s with
  | EmptyString => true
  | String c s' => f c && all_chars f s'
  end.

Definition not_closing_bracket (c : ascii) : bool := negb (Ascii.eqb c "]").

Definition not_line_feed (c : ascii) : bool := negb (Ascii.eqb c "010").

(** The answer of the maintainer tool is one the loop gives up on. *)
Definition gives_up (a : Z * string) : bool :=
  bool_decide (a.1 ≠ 0%Z) || bool_decide (re.findall a.2 = []).

(** The reviewers of a list of commits, for a maintainer tool that is a
    function of the commit: nothing when an answer is given up on, else the
    trimmed tokens of all answers, each at its first place. *)
Definition resolve (tool : string → Z * string) (commits : list string)
  : list string :=
  if existsb (λ c, gives_up (tool c)) commits then []
  else OrderedDict.keys
         (OrderedDict.fromkeys
            (str.strip <$> (c ← commits; re.findall (tool c).2))).

(** The lines the loop prints. *)
Definition lookup_error_line (ret : Z) (out : string) : string :=
  "::error title=Reviewer Lookup Error!::Error calling GetMaintainer.py: ["
  +:+ str_of_int ret +:+ "]: " +:+ out.

Definition commit_line (commit_sha out : string) : string :=
  "::debug title=Commit " +:+ str.prefix 7 commit_sha +:+ " Reviewer(s)::"
  +:+ str.join ", " (re.findall out).

Definition total_line (reviewers : list string) : string :=
  "::debug title=Total Reviewer Set::" +:+ str.join ", " reviewers.

(** The traces of the loop over [commits]: a good answer is followed by the
    line of the commit and the loop goes on; an answer with a status other
    than zero is followed by the error line and ends the trace; an answer
    without a token ends the trace.  The flag tells whether the loop came to
    the end of the commits. *)
Inductive loop_trace (mf ws : string) : list string → list event → bool → Prop :=
| loop_done : loop_trace mf ws [] [] true
| loop_good commit commits out evs finished :
    re.findall out ≠ [] →
    loop_trace mf ws commits evs finished →
    loop_trace mf ws (commit :: commits)
      (RunPythonScript_call mf ("-g " +:+ commit) ws 0 out
       :: print_call (commit_line commit out) :: evs) finished
| loop_error commit commits ret out :
    ret ≠ 0%Z →
    loop_trace mf ws (commit :: commits)
      [RunPythonScript_call mf ("-g " +:+ commit) ws ret out;
       print_call (lookup_error_line ret out)] false
| loop_no_token commit commits out :
    re.findall out = [] →
    loop_trace mf ws (commit :: commits)
      [RunPythonScript_call mf ("-g " +:+ commit) ws 0 out] false.

(** An event is a request. *)
Definition is_request (ev : event) : bool :=
  match ev with
  | requests_get_call _ _ _ | requests_post_call _ _ _ _ => true
  | _ => false
  end.

(** ** More scripted runs *)

Module Downloads.

Import Scripted.

(** The text of a scripted response. *)
Definition text (r : Response) : string := "text of " +:+ reason r.

Definition download_gh_file :=
  download_gh_file (World:=World) http_get text.

(** A disk with one file, and the responses to come. *)
Definition start (responses : list Response) : disk World :=
  mkDisk (initial (mkWorld [] [] responses) ∅)
    {[ "Maintainers.txt" := "old text"; "ReadMe.rst" := "read me" ]}.


Definition missing : Response := mkResponse 404 "Not Found" None.

End Downloads.

Module Requests.

Import Scripted.

(** The candidates at location 1 and the responses to come. *)
Definition start (responses : list Response) : state World :=
  initial (mkWorld [] [] responses)
    {[ 1%positive := ["alice"; "bob"; "carol"; "bob"] ]}.

Definition author : Response :=
  mkResponse 200 "OK" (Some (JObj [("user", JObj [("login", JStr " bob ")])])).

Definition forbidden : Response := mkResponse 403 "Forbidden" None.

Definition created : Response := mkResponse 201 "Created" None.

Definition not_collaborator : Response :=
  mkResponse 422 "Unprocessable Entity"
    (Some (JObj [("message",
                  JStr "Reviews may only be requested from collaborators.")])).

Definition invalid : Response :=
  mkResponse 422 "Unprocessable Entity"
    (Some (JObj [("message", JStr "Validation Failed")])).

Definition no_message : Response :=
  mkResponse 422 "Unprocessable Entity" (Some (JObj [])).

Definition no_user : Response := mkResponse 200 "OK" (Some (JObj [])).

End Requests.

(** * Properties *)

(** ** Strings *)

Example strip_both_ends : str.strip "  alice " = "alice".
Proof. reflexivity. Qed.

Example strip_line_feed : str.strip (LF +:+ " " +:+ LF) = EmptyString.
Proof. reflexivity. Qed.

Example splitlines_two : str.splitlines ("A" +:+ LF +:+ "B" +:+ LF) = ["A"; "B"].
Proof. reflexivity. Qed.

Example splitlines_none : str.splitlines EmptyString = [].
Proof. reflexivity. Qed.

Example findall_tokens :
  re.findall "Reviewed-by: [alice] [bob]" = ["alice"; "bob"].
Proof. reflexivity. Qed.

Example findall_first_closing_bracket :
  re.findall "[a[b]c] [] [ x ]" = ["a[b"; EmptyString; " x "].
Proof. reflexivity. Qed.

Example findall_not_across_lines :
  re.findall ("[alice" +:+ LF +:+ "bob] [carol]") = ["carol"].
Proof. reflexivity. Qed.

Example fromkeys_first_occurrences :
  OrderedDict.keys (OrderedDict.fromkeys ["bob"; "alice"; "bob"; "Bob"])
  = ["bob"; "alice"; "Bob"].
Proof. reflexivity. Qed.


Lemma append_cons c (a b : string) : String c a +:+ b = String c (a +:+ b).
Proof. done. Qed.

Lemma append_empty_l (a : string) : EmptyString +:+ a = a.
Proof. done. Qed.

Lemma append_assoc (a b c : string) : (a +:+ b) +:+ c = a +:+ (b +:+ c).
Proof.
  induction a as [|x a IH]; [done|]. rewrite !append_cons. by rewrite IH.
Qed.

Lemma append_empty_r (a : string) : a +:+ EmptyString = a.
Proof.
  induction a as [|x a IH]; [done|]. rewrite append_cons. by rewrite IH.
Qed.

Lemma lstrip_blank s : blank s = true → str.lstrip s = EmptyString.
Proof.
  induction s as [|c s IH]; simpl; [done|].
  intros [Hc Hs]%andb_prop. rewrite Hc. auto.
Qed.

Lemma strip_blank s : blank s = true → str.strip s = EmptyString.
Proof. intros H. unfold str.strip. by rewrite lstrip_blank. Qed.

(** ** The bracket pattern *)

Lemma lazy_group_one_line g post :
  one_line g = true → is_Some (re.lazy_group (g +:+ String "]" post)).
Proof.
  induction g as [|c g IH]; [simpl; eauto|].
  rewrite append_cons. simpl.
  intros [Hc Hg]%andb_prop. destruct (Ascii.eqb c "]"); [eauto|].
  apply negb_true_iff in Hc. rewrite Hc.
  destruct (IH Hg) as [g' ->]. simpl. eauto.
Qed.

Lemma isspace_not_bracket c : str.isspace c = true → Ascii.eqb c "]" = false.
Proof.
  intros H. apply Ascii.eqb_neq. intros ->. vm_compute in H. done.
Qed.

Lemma lazy_group_blank ws post :
  blank ws = true → one_line ws = true →
  re.lazy_group (ws +:+ String "]" post) = Some ws.
Proof.
  induction ws as [|c ws IH]; [done|]. rewrite append_cons. simpl.
  intros [Hc Hws]%andb_prop [Hn Hl]%andb_prop.
  rewrite (isspace_not_bracket _ Hc). apply negb_true_iff in Hn. rewrite Hn.
  by rewrite IH.
Qed.

Lemma findall_match_later pre s :
  is_Some (re.match_at s) → re.findall (pre +:+ s) ≠ [].
Proof.
  intros Hs. unfold re.findall. induction pre as [|c pre IH].
  - rewrite append_empty_l. destruct s as [|c s]; [by destruct Hs|].
    cbn [re.scan]. destruct Hs as [g ->]. done.
  - rewrite append_cons. cbn [re.scan].
    destruct (re.match_at (String c (pre +:+ s))); done.
Qed.

(** The scan that passes [n] characters is the scan of the rest. *)
Lemma scan_skip n s : re.scan n s = re.scan 0 (str.suffix n s).
Proof.
  revert n. induction s as [|c s IH]; intros [|n]; try done.
  simpl. apply IH.
Qed.

Lemma lazy_group_shape s g :
  re.lazy_group s = Some g →
  ∃ rest, s = g +:+ String "]" rest ∧ str.suffix (S (String.length g)) s = rest.
Proof.
  revert g. induction s as [|c s IH]; intros g; simpl; [done|].
  destruct (Ascii.eqb_spec c "]") as [->|_].
  { intros [= <-]. exists s. by destruct s. }
  destruct (Ascii.eqb c "010"); [done|].
  destruct (re.lazy_group s) as [g'|]; simpl; [|done].
  intros [= <-]. destruct (IH _ eq_refl) as (rest & -> & Hr).
  exists rest. split; [done|]. simpl. simpl in Hr. done.
Qed.

(** [re.findall] at a match: group 1, then the tokens behind the match. *)
Lemma findall_match s g :
  re.match_at s = Some g →
  ∃ rest, s = "[" +:+ g +:+ "]" +:+ rest
          ∧ re.findall s = g :: re.findall rest.
Proof.
  intros H. destruct s as [|c s]; [done|].
  assert (c = "["%char) as ->.
  { simpl in H. by repeat case_match. }
  change (re.lazy_group s = Some g) in H.
  destruct (lazy_group_shape _ _ H) as (rest & -> & Hr). exists rest.
  split; [done|]. unfold re.findall. cbn [re.scan].
  change (re.match_at _) with (re.lazy_group (g +:+ String "]" rest)).
  rewrite H. f_equal. rewrite scan_skip. by rewrite Hr.
Qed.

(** [re.findall] where the pattern does not match: one character on. *)
Lemma findall_no_match c s :
  re.match_at (String c s) = None → re.findall (String c s) = re.findall s.
Proof. intros H. unfold re.findall. cbn [re.scan]. by rewrite H. Qed.

(** ** Order-preserving deduplication *)

Lemma keys_setitem {V} k (v : V) d :
  OrderedDict.keys (OrderedDict.setitem k v d)
  = add_key (OrderedDict.keys d) k.
Proof.
  unfold OrderedDict.keys, add_key.
  induction d as [|[k' v'] d IH]; csimpl; [done|].
  destruct (decide (k' = k)) as [->|Hne]; csimpl.
  - rewrite decide_True; [done|]. apply list_elem_of_here.
  - rewrite IH. destruct (decide (k ∈ d.*1)) as [Hin|Hin].
    + rewrite decide_True; [done|]. by apply list_elem_of_further.
    + rewrite decide_False; [done|].
      intros [?|?]%elem_of_cons; congruence.
Qed.

Lemma keys_foldl_setitem (l : list string) (d : OrderedDict.t unit) :
  OrderedDict.keys (foldl (λ d k, OrderedDict.setitem k () d) d l)
  = foldl add_key (OrderedDict.keys d) l.
Proof.
  revert d. induction l as [|k l IH]; intros d; simpl; [done|].
  by rewrite IH, keys_setitem.
Qed.

Lemma keys_fromkeys l :
  OrderedDict.keys (OrderedDict.fromkeys l) = foldl add_key [] l.
Proof. apply keys_foldl_setitem. Qed.

Lemma foldl_add_key_prefix l seen : seen `prefix_of` foldl add_key seen l.
Proof.
  revert seen. induction l as [|k l IH]; intros seen; simpl; [done|].
  etrans; [|apply IH]. unfold add_key. case_decide; [done|].
  by apply prefix_app_r.
Qed.

Lemma foldl_add_key_NoDup l seen : NoDup seen → NoDup (foldl add_key seen l).
Proof.
  revert seen. induction l as [|k l IH]; intros seen Hs; simpl; [done|].
  apply IH. unfold add_key. case_decide; [done|].
  apply NoDup_app. split_and!; [done| |apply NoDup_singleton].
  intros x Hx ->%list_elem_of_singleton. done.
Qed.

Lemma elem_of_foldl_add_key l seen x :
  x ∈ foldl add_key seen l ↔ x ∈ seen ∨ x ∈ l.
Proof.
  revert seen. induction l as [|k l IH]; intros seen; simpl.
  { rewrite elem_of_nil. tauto. }
  rewrite IH, elem_of_cons. unfold add_key. case_decide.
  - split; [tauto|]. intros [?|[->|?]]; tauto.
  - rewrite elem_of_app, list_elem_of_singleton. tauto.
Qed.

Lemma index_Some x l i :
  index x l = Some i →
  l !! i = Some x ∧ x ∉ take i l.
Proof.
  unfold index. destruct (list_find (x =.) l) as [[j y]|] eqn:E; [|done].
  intros [= <-]. apply list_find_Some in E as (Hj & <- & Hlt).
  split; [done|]. intros (k & Hk)%list_elem_of_lookup_1.
  rewrite lookup_take_Some in Hk. destruct Hk as [Hk ?].
  by eapply Hlt.
Qed.

Lemma index_app_r x l1 l2 :
  x ∉ l1 → index x (l1 ++ l2) = (λ n, n + length l1) <$> index x l2.
Proof.
  intros Hx. unfold index. rewrite list_find_app_r.
  - by destruct (list_find (x =.) l2) as [[j y]|].
  - apply list_find_None, Forall_forall. by intros y Hy <-.
Qed.

Lemma index_is_Some x l : x ∈ l → is_Some (index x l).
Proof.
  intros Hx. unfold index.
  destruct (list_find_elem_of (x =.) l x Hx eq_refl) as [[j y] ->]. by eexists.
Qed.

Lemma index_here x l1 l2 : x ∉ l1 → index x (l1 ++ x :: l2) = Some (length l1).
Proof.
  intros Hx. rewrite index_app_r by done. unfold index. simpl.
  by rewrite decide_True.
Qed.

(** The first [x] comes before the first [y]: [l] splits at the first [x],
    with [y] only behind it. *)
Lemma occurs_before_split x y l :
  occurs_before x y l →
  ∃ l1 l2, l = l1 ++ x :: l2 ∧ (x ∉ l1) ∧ (y ∉ l1) ∧ y ≠ x ∧ y ∈ l2.
Proof.
  intros (i & j & Hi & Hj & Hlt).
  apply index_Some in Hi as [Hi Hxi]. apply index_Some in Hj as [Hj Hyj].
  exists (take i l), (drop (S i) l).
  assert (y ≠ x) as Hne.
  { intros ->. apply Hyj. apply list_elem_of_lookup. exists i.
    apply lookup_take_Some. split; [done|lia]. }
  split_and!; [by rewrite take_drop_middle|done| |done|].
  - intros (k & Hk)%list_elem_of_lookup.
    apply lookup_take_Some in Hk as [Hk ?]. apply Hyj.
    apply list_elem_of_lookup. exists k. apply lookup_take_Some.
    split; [done|lia].
  - apply list_elem_of_lookup. exists (j - S i). rewrite lookup_drop.
    by replace (S i + (j - S i)) with j by lia.
Qed.

Lemma split_occurs_before x y l1 l2 :
  x ∉ l1 → y ∉ l1 → y ≠ x → y ∈ l2 → occurs_before x y (l1 ++ x :: l2).
Proof.
  intros Hx Hy Hne Hin. destruct (index_is_Some y l2 Hin) as [j Hj].
  exists (length l1), (S j + length l1). split_and!; [by apply index_here| |lia].
  rewrite (index_app_r y l1) by done. unfold index in *. simpl.
  rewrite decide_False by done.
  destruct (list_find (y =.) l2) as [[j' z]|]; simplify_eq/=. done.
Qed.

(** The keys come out without repetition, they are the keys that went in,
    and they stand in the order of their first occurrences. *)
Lemma fromkeys_NoDup l : NoDup (OrderedDict.keys (OrderedDict.fromkeys l)).
Proof. rewrite keys_fromkeys. apply foldl_add_key_NoDup, NoDup_nil_2. Qed.

Lemma elem_of_fromkeys l x :
  x ∈ OrderedDict.keys (OrderedDict.fromkeys l) ↔ x ∈ l.
Proof. rewrite keys_fromkeys, elem_of_foldl_add_key, elem_of_nil. tauto. Qed.

Lemma fromkeys_occurs_before l x y :
  occurs_before x y l →
  occurs_before x y (OrderedDict.keys (OrderedDict.fromkeys l)).
Proof.
  intros (l1 & l2 & -> & Hx & Hy & Hne & Hin)%occurs_before_split.
  rewrite keys_fromkeys, foldl_app. simpl.
  set (seen := foldl add_key [] l1).
  assert (∀ z, z ∈ seen ↔ z ∈ l1) as Hseen.
  { intros z. unfold seen. rewrite elem_of_foldl_add_key, elem_of_nil. tauto. }
  unfold add_key at 2. rewrite decide_False by (by rewrite Hseen).
  destruct (foldl_add_key_prefix l2 (seen ++ [x])) as [rest Hrest].
  rewrite Hrest, <-app_assoc. simpl.
  apply split_occurs_before; [by rewrite Hseen|by rewrite Hseen|done|].
  assert (y ∈ foldl add_key (seen ++ [x]) l2) as Hy'.
  { apply elem_of_foldl_add_key. by right. }
  rewrite Hrest, !elem_of_app, list_elem_of_singleton, Hseen in Hy'. tauto.
Qed.

(** ** Traces *)

Lemma script_calls_app tr1 tr2 :
  script_calls (tr1 ++ tr2) = script_calls tr1 ++ script_calls tr2.
Proof. apply omap_app. Qed.

Lemma match_stream_app tr1 tr2 :
  match_stream (tr1 ++ tr2) = match_stream tr1 ++ match_stream tr2.
Proof. unfold match_stream. by rewrite script_calls_app, bind_app. Qed.

Lemma events_of_app {World A} (m : M World A) st evs :
  trace (m st).2 = trace st ++ evs → events_of m st = evs.
Proof. intros H. unfold events_of. rewrite H. by rewrite drop_app_length. Qed.

(** ** The loop over the commits *)

Section Reviewers.

Context {World : Type}.
Variable run_cmd : string → string → string → World → (Z * string) * World.
Variable run_python_script :
  string → string → string → World → (Z * string) * World.

(** One turn of the loop. *)
Lemma for_commit_sha_cons ws mf commit_sha commits raw st :
  for_commit_sha run_python_script ws mf (commit_sha :: commits) raw st =
  let r := (run_python_script mf ("-g " +:+ commit_sha) ws (world st)).1 in
  let w := (run_python_script mf ("-g " +:+ commit_sha) ws (world st)).2 in
  let st1 :=
    mkState w (store st)
      (trace st
       ++ [RunPythonScript_call mf ("-g " +:+ commit_sha) ws r.1 r.2]) in
  if bool_decide (r.1 ≠ 0%Z) then
    (Return (Returned []),
     emit
       (print_call ("::error title=Reviewer Lookup Error!::"
                    +:+ "Error calling GetMaintainer.py: ["
                    +:+ str_of_int r.1 +:+ "]: " +:+ r.2)) st1)
  else if bool_decide (re.findall r.2 = []) then (Return (Returned []), st1)
  else
    for_commit_sha run_python_script ws mf commits (raw ++ re.findall r.2)
      (emit
         (print_call ("::debug title=Commit " +:+ str.prefix 7 commit_sha
                      +:+ " Reviewer(s)::"
                      +:+ str.join ", " (re.findall r.2))) st1).
Proof.
  cbn [for_commit_sha]. unfold mbind, M_bind, RunPythonScript.
  destruct (run_python_script mf ("-g " +:+ commit_sha) ws (world st))
    as [[ret out] w]. cbn [fst snd].
  repeat case_bool_decide; done.
Qed.

(** What a run of the loop leaves behind. *)
Lemma for_commit_sha_run ws mf commits raw st :
  ∃ r st' evs,
    for_commit_sha run_python_script ws mf commits raw st = (Return r, st')
    ∧ trace st' = trace st ++ evs
    ∧ store st' = store st
    ∧ Forall (λ ev, is_RunCmd ev = false) evs
    ∧ inv_params <$> script_calls evs
        `prefix_of` (λ c, "-g " +:+ c) <$> commits
    ∧ Forall (λ c, ∃ w, (run_python_script mf (inv_params c) ws w).1
                        = (inv_ret c, inv_out c)) (script_calls evs)
    ∧ ((r = Fallthrough (raw ++ match_stream evs)
        ∧ Forall (λ c, failed c = false) (script_calls evs)
        ∧ length (script_calls evs) = length commits)
       ∨ (r = Returned []
          ∧ ∃ pre c, script_calls evs = pre ++ [c]
                     ∧ Forall (λ c, failed c = false) pre
                     ∧ failed c = true)).
Proof.
  revert raw st. induction commits as [|commit_sha commits IH]; intros raw st.
  { exists (Fallthrough raw), st, []. rewrite !app_nil_r.
    split_and!; try done. left. by split_and!. }
  rewrite for_commit_sha_cons.
  destruct (run_python_script mf ("-g " +:+ commit_sha) ws (world st))
    as [[ret out] w] eqn:Hrun. cbn [fst snd]. cbv zeta.
  set (call := RunPythonScript_call mf ("-g " +:+ commit_sha) ws ret out).
  assert (∃ w0, (run_python_script mf ("-g " +:+ commit_sha) ws w0).1
                = (ret, out)) as Hanswer.
  { exists (world st). by rewrite Hrun. }
  case_bool_decide as Hret.
  { eexists _, _, [call; _]. split; [done|]. cbn [trace emit].
    rewrite <-app_assoc. split_and!; try done.
    - by repeat constructor.
    - csimpl. by apply prefix_cons, prefix_nil.
    - by repeat constructor.
    - right. split; [done|]. exists [], (mkInvocation ("-g " +:+ commit_sha) ret out).
      split_and!; [done|done|]. unfold failed. simpl.
      by rewrite bool_decide_eq_true_2. }
  case_bool_decide as Hmatches.
  { eexists _, _, [call]. split; [done|]. cbn [trace].
    split_and!; try done.
    - by repeat constructor.
    - csimpl. by apply prefix_cons, prefix_nil.
    - by repeat constructor.
    - right. split; [done|]. exists [], (mkInvocation ("-g " +:+ commit_sha) ret out).
      split_and!; [done|done|]. unfold failed. simpl.
      rewrite (bool_decide_eq_true_2 (re.findall out = [])) by done.
      apply orb_true_r. }
  match goal with |- context [for_commit_sha _ _ _ _ ?raw' ?st1] =>
    destruct (IH raw' st1)
      as (r & st' & evs & -> & Htr & Hst & Hcmd & Hpre & Hans & Hr) end.
  cbn [trace store emit] in Htr, Hst.
  set (line := print_call _) in Htr.
  exists r, st', (call :: line :: evs). split; [done|].
  assert (failed (mkInvocation ("-g " +:+ commit_sha) ret out) = false) as Hok.
  { unfold failed. simpl.
    rewrite (bool_decide_eq_false_2 (ret ≠ 0%Z)) by (by intros ?).
    by rewrite bool_decide_eq_false_2. }
  split_and!.
  - rewrite Htr, <-!app_assoc. done.
  - done.
  - by repeat constructor.
  - csimpl. by apply prefix_cons.
  - csimpl. by constructor.
  - destruct Hr as [(-> & Hall & Hlen)|(-> & pre & c & Hcalls & Hall & Hc)].
    + left. split_and!.
      * unfold match_stream. csimpl. fold (match_stream evs).
        by rewrite app_assoc.
      * csimpl. by constructor.
      * csimpl. by rewrite Hlen.
    + right. split; [done|].
      exists (mkInvocation ("-g " +:+ commit_sha) ret out :: pre), c.
      split_and!; [|by constructor|done]. csimpl. by rewrite Hcalls.
Qed.

Lemma reviewers_of_commits_run ws mf commits st :
  ∃ l st' evs,
    reviewers_of_commits run_python_script ws mf commits st = (Return l, st')
    ∧ trace st' = trace st ++ evs
    ∧ store st' = store st
    ∧ Forall (λ ev, is_RunCmd ev = false) evs
    ∧ inv_params <$> script_calls evs
        `prefix_of` (λ c, "-g " +:+ c) <$> commits
    ∧ Forall (λ c, ∃ w, (run_python_script mf (inv_params c) ws w).1
                        = (inv_ret c, inv_out c)) (script_calls evs)
    ∧ ((l = OrderedDict.keys
              (OrderedDict.fromkeys (str.strip <$> match_stream evs))
        ∧ Forall (λ c, failed c = false) (script_calls evs)
        ∧ length (script_calls evs) = length commits)
       ∨ (l = []
          ∧ ∃ pre c, script_calls evs = pre ++ [c]
                     ∧ Forall (λ c, failed c = false) pre
                     ∧ failed c = true)).
Proof.
  unfold reviewers_of_commits, mbind, M_bind.
  destruct (for_commit_sha_run ws mf commits [] st)
    as (r & st' & evs & -> & Htr & Hst & Hcmd & Hpre & Hans & Hr).
  destruct Hr as [(-> & Hall & Hlen)|(-> & Hfail)].
  - eexists _, _, (evs ++ [print_call _]). split; [done|].
    cbn [trace store emit].
    rewrite Htr, <-app_assoc, script_calls_app, match_stream_app.
    unfold match_stream at 2. csimpl. rewrite !app_nil_r.
    split_and!; try done.
    + apply Forall_app. split; [done|]. by repeat constructor.
    + by left.
  - exists [], st', evs. split; [done|]. split_and!; try done. by right.
Qed.

(** The three ways a call ends: with the reviewers of all commits, at an
    invocation of the maintainer tool it gives up on, or at the failed
    listing of the commits. *)
Lemma get_reviewers_for_range_run ws mf range_start range_end st :
  ∃ l st' evs,
    get_reviewers_for_range run_cmd run_python_script
      ws mf range_start range_end st = (Return l, st')
    ∧ trace st' = trace st ++ evs
    ∧ store st' = store st
    ∧ ((l = OrderedDict.keys
              (OrderedDict.fromkeys (str.strip <$> match_stream evs))
        ∧ Forall (λ c, failed c = false) (script_calls evs))
       ∨ (l = []
          ∧ ∃ pre c, script_calls evs = pre ++ [c]
                     ∧ Forall (λ c, failed c = false) pre
                     ∧ failed c = true)
       ∨ (l = [] ∧ range_start ≠ range_end
          ∧ ∃ ret out line,
              ret ≠ 0%Z
              ∧ evs = [RunCmd_call "git"
                         ("log --format=format:%H " +:+ range_start
                          +:+ ".." +:+ range_end) ws ret out;
                       print_call line])).
Proof.
  unfold get_reviewers_for_range, range_commits, mbind, M_bind.
  case_bool_decide as Hrange.
  { cbn [mret M_ret].
    destruct (reviewers_of_commits_run ws mf [range_start] st)
      as (l & st' & evs & -> & Htr & Hst & _ & _ & _ & Hl).
    exists l, st', evs. split_and!; try done.
    destruct Hl as [(-> & Hall & _)|(-> & Hfail)]; [by left|by right; left]. }
  unfold RunCmd.
  destruct (run_cmd _ _ _ _) as [[ret out] w]. cbn [fst snd].
  case_bool_decide as Hret.
  { eexists [], _, [_; _]. split; [done|]. cbn [trace store emit].
    rewrite <-app_assoc. split_and!; try done.
    right; right. split_and!; try done. by eexists _, _, _. }
  cbn [mret M_ret].
  match goal with |- context [reviewers_of_commits _ _ _ ?cs ?st1] =>
    destruct (reviewers_of_commits_run ws mf cs st1)
      as (l & st' & evs & -> & Htr & Hst & _ & _ & _ & Hl) end.
  cbn [trace store emit] in Htr, Hst.
  eexists l, st', (_ :: evs). split; [done|].
  split_and!; [by rewrite Htr, <-app_assoc|done|].
  destruct Hl as [(-> & Hall & _)|(-> & Hfail)]; [by left|by right; left].
Qed.

(** A range of one commit whose invocation succeeds. *)
Lemma single_commit_run ws mf commit st out w :
  run_python_script mf ("-g " +:+ commit) ws (world st) = ((0%Z, out), w) →
  (get_reviewers_for_range run_cmd run_python_script ws mf commit commit st).1
  = Return (if bool_decide (re.findall out = []) then []
            else OrderedDict.keys
                   (OrderedDict.fromkeys (str.strip <$> re.findall out))).
Proof.
  intros Hrun.
  unfold get_reviewers_for_range, range_commits, mbind, M_bind.
  rewrite bool_decide_eq_true_2 by done. cbn [mret M_ret].
  unfold reviewers_of_commits, mbind, M_bind.
  rewrite for_commit_sha_cons, Hrun. cbn [fst snd]. cbv zeta.
  rewrite (bool_decide_eq_false_2 (0%Z ≠ 0%Z)) by (by intros ?).
  case_bool_decide; [done|]. by cbn [for_commit_sha mret M_ret].
Qed.

(** C1.  A range that lists the commits A and B, the maintainer tool
    answering "Reviewed-by: [alice] [bob]" for A and
    "Reviewed-by: [bob] [carol]" for B, both with status 0: the result is
    alice, bob, carol. *)
Theorem two_commits_scenario ws mf range_start range_end st A B out w1 w2 w3 :
  range_start ≠ range_end →
  run_cmd "git"
    ("log --format=format:%H " +:+ range_start +:+ ".." +:+ range_end)
    ws (world st) = ((0%Z, out), w1) →
  str.splitlines out = [A; B] →
  run_python_script mf ("-g " +:+ A) ws w1
  = ((0%Z, "Reviewed-by: [alice] [bob]"), w2) →
  run_python_script mf ("-g " +:+ B) ws w2
  = ((0%Z, "Reviewed-by: [bob] [carol]"), w3) →
  (get_reviewers_for_range run_cmd run_python_script
     ws mf range_start range_end st).1
  = Return ["alice"; "bob"; "carol"].
Proof.
  intros Hrange Hgit Hlines HA HB.
  unfold get_reviewers_for_range, range_commits, mbind, M_bind, RunCmd.
  rewrite bool_decide_eq_false_2, Hgit by done. cbn [fst snd].
  rewrite (bool_decide_eq_false_2 (0%Z ≠ 0%Z)) by (by intros ?).
  cbn [mret M_ret]. rewrite Hlines.
  unfold reviewers_of_commits, mbind, M_bind.
  rewrite for_commit_sha_cons. cbn [world emit]. rewrite HA. cbn [fst snd].
  cbv zeta. rewrite (bool_decide_eq_false_2 (0%Z ≠ 0%Z)) by (by intros ?).
  change (re.findall "Reviewed-by: [alice] [bob]") with ["alice"; "bob"].
  rewrite (bool_decide_eq_false_2 (_ = [])) by done.
  rewrite for_commit_sha_cons. cbn [world emit]. rewrite HB. cbn [fst snd].
  cbv zeta. rewrite (bool_decide_eq_false_2 (0%Z ≠ 0%Z)) by (by intros ?).
  change (re.findall "Reviewed-by: [bob] [carol]") with ["bob"; "carol"].
  rewrite (bool_decide_eq_false_2 (_ = [])) by done.
  by cbn [for_commit_sha mret M_ret].
Qed.

(** C2.  A result that is not empty has no identifier twice, holds the
    trimmed bracketed tokens of the invocations of the run and no others,
    and keeps the order of their first occurrences: an identifier whose
    first occurrence in the stream of trimmed tokens is before that of
    another one stands before it in the result. *)
Theorem result_unique_in_first_occurrence_order
  ws mf range_start range_end st l :
  let run := get_reviewers_for_range run_cmd run_python_script
               ws mf range_start range_end in
  (run st).1 = Return l → l ≠ [] →
  let stream := str.strip <$> match_stream (events_of run st) in
  NoDup l
  ∧ (∀ x, x ∈ l ↔ x ∈ stream)
  ∧ (∀ x y, occurs_before x y stream → occurs_before x y l).
Proof.
  intros run Hl Hne stream. subst run stream.
  destruct (get_reviewers_for_range_run ws mf range_start range_end st)
    as (l' & st' & evs & Hrun & Htr & _ & Hcases).
  rewrite (events_of_app _ st evs) by (by rewrite Hrun).
  rewrite Hrun in Hl. simplify_eq/=.
  destruct Hcases as [[-> _]|[[-> _]|[-> _]]]; [|done|done].
  split_and!.
  - apply fromkeys_NoDup.
  - intros x. apply elem_of_fromkeys.
  - intros x y. apply fromkeys_occurs_before.
Qed.

(** C4.  The range is not a single commit and the listing of the commits
    ends with a status other than zero: the call returns the empty list,
    prints one line that holds the status and the captured output, and
    does nothing else; the maintainer tool is not run. *)
Theorem commit_listing_failure ws mf range_start range_end st ret out w :
  range_start ≠ range_end →
  run_cmd "git"
    ("log --format=format:%H " +:+ range_start +:+ ".." +:+ range_end)
    ws (world st) = ((ret, out), w) →
  ret ≠ 0%Z →
  let run := get_reviewers_for_range run_cmd run_python_script
               ws mf range_start range_end in
  let line := "::error title=Commit Lookup Error!::"
              +:+ "Error getting branch commits: ["
              +:+ str_of_int ret +:+ "]: " +:+ out in
  run st
  = (Return [],
     mkState w (store st)
       (trace st
        ++ [RunCmd_call "git"
              ("log --format=format:%H " +:+ range_start
               +:+ ".." +:+ range_end) ws ret out;
            print_call line]))
  ∧ substring_of (str_of_int ret) line
  ∧ substring_of out line
  ∧ script_calls (events_of run st) = [].
Proof.
  intros Hrange Hgit Hret run line.
  assert (run st
          = (Return [],
             mkState w (store st)
               (trace st
                ++ [RunCmd_call "git"
                      ("log --format=format:%H " +:+ range_start
                       +:+ ".." +:+ range_end) ws ret out;
                    print_call line]))) as Hrun.
  { subst run.
    unfold get_reviewers_for_range, range_commits, mbind, M_bind, RunCmd.
    rewrite bool_decide_eq_false_2, Hgit by done. cbn [fst snd].
    rewrite bool_decide_eq_true_2 by done. unfold print, emit. simpl.
    by rewrite <-app_assoc. }
  split_and!; [done| | |].
  - exists ("::error title=Commit Lookup Error!::"
            +:+ "Error getting branch commits: ["), ("]: " +:+ out).
    subst line. by rewrite !append_assoc.
  - exists ("::error title=Commit Lookup Error!::"
            +:+ "Error getting branch commits: ["
            +:+ str_of_int ret +:+ "]: "), EmptyString.
    subst line. by rewrite append_empty_r, !append_assoc.
  - erewrite events_of_app; [|by rewrite Hrun]. done.
Qed.

(** C5.  A run in which an invocation of the maintainer tool ends with a
    status other than zero, or with an output that has no bracketed token,
    returns the empty list; that invocation is the last one of the run,
    and the invocations before it were good ones. *)
Theorem failing_invocation_empties_result ws mf range_start range_end st :
  let run := get_reviewers_for_range run_cmd run_python_script
               ws mf range_start range_end in
  Exists (λ c, failed c = true) (script_calls (events_of run st)) →
  (run st).1 = Return []
  ∧ ∃ pre c, script_calls (events_of run st) = pre ++ [c]
             ∧ Forall (λ c, failed c = false) pre
             ∧ failed c = true.
Proof.
  intros run. subst run.
  destruct (get_reviewers_for_range_run ws mf range_start range_end st)
    as (l & st' & evs & Hrun & Htr & _ & Hcases).
  rewrite (events_of_app _ st evs) by (by rewrite Hrun).
  rewrite Hrun. intros Hex.
  destruct Hcases as [[-> Hall]|[[-> Hfail]|(-> & _ & ret & out & line & _ & ->)]].
  - apply Exists_exists in Hex as (c & Hc & Hf).
    rewrite Forall_forall in Hall. specialize (Hall c Hc). congruence.
  - done.
  - by apply Exists_nil in Hex.
Qed.

(** With a maintainer tool whose answer depends on the commit alone, one
    commit of the list with a failing answer empties the result. *)
Lemma failing_commit_empties_result ws mf commits st (tool : string → Z * string) :
  (∀ c w, (run_python_script mf ("-g " +:+ c) ws w).1 = tool c) →
  Exists (λ c, failed (mkInvocation ("-g " +:+ c) (tool c).1 (tool c).2) = true)
    commits →
  (reviewers_of_commits run_python_script ws mf commits st).1 = Return [].
Proof.
  intros Htool Hex. unfold reviewers_of_commits, mbind, M_bind.
  enough (∀ raw st, ∃ st',
             for_commit_sha run_python_script ws mf commits raw st
             = (Return (Returned []), st')) as Hloop.
  { destruct (Hloop [] st) as [st' ->]. done. }
  induction commits as [|c commits IH]; intros raw st0.
  { by apply Exists_nil in Hex. }
  rewrite for_commit_sha_cons, Htool. cbv zeta.
  unfold failed in Hex. cbn [inv_ret inv_out] in Hex.
  case_bool_decide as Hret; [by eexists|].
  case_bool_decide as Hmatch; [by eexists|].
  apply Exists_cons in Hex as [Hc|Hex]; [|by apply IH].
  rewrite (bool_decide_eq_false_2 (_ ≠ _)) in Hc by (by intros ?).
  by rewrite (bool_decide_eq_false_2 (_ = [])) in Hc by done.
Qed.

(** C3.  With [range_start] equal to [range_end] the maintainer tool is
    run once, for that commit, and nothing else happens but printing; the
    listing of commits is not run, and the call does the same whatever
    that collaborator would answer. *)
Theorem single_commit_range
  (run_cmd' : string → string → string → World → (Z * string) * World)
  ws mf commit st :
  let run := get_reviewers_for_range run_cmd run_python_script
               ws mf commit commit in
  (∃ ret out prints,
      events_of run st
      = RunPythonScript_call mf ("-g " +:+ commit) ws ret out :: prints
      ∧ Forall (λ ev, is_print ev = true) prints)
  ∧ Forall (λ ev, is_RunCmd ev = false) (events_of run st)
  ∧ get_reviewers_for_range run_cmd' run_python_script ws mf commit commit st
    = run st.
Proof.
  intros run.
  assert (∃ ret out prints,
             events_of run st
             = RunPythonScript_call mf ("-g " +:+ commit) ws ret out :: prints
             ∧ Forall (λ ev, is_print ev = true) prints) as Hshape.
  { subst run. unfold events_of.
    unfold get_reviewers_for_range, range_commits, mbind, M_bind.
    rewrite bool_decide_eq_true_2 by done. cbn [mret M_ret].
    unfold reviewers_of_commits, mbind, M_bind.
    rewrite for_commit_sha_cons.
    destruct (run_python_script mf ("-g " +:+ commit) ws (world st))
      as [[ret out] w]. cbn [fst snd]. cbv zeta.
    exists ret, out.
    repeat case_bool_decide; cbn [for_commit_sha mret M_ret print emit trace snd];
      rewrite <-?app_assoc, drop_app_length; eexists; split; try done;
      by repeat constructor. }
  split_and!; [done| |].
  - destruct Hshape as (ret & out & prints & -> & Hprints).
    constructor; [done|]. eapply Forall_impl; [exact Hprints|].
    by intros [].
  - subst run. unfold get_reviewers_for_range, range_commits, mbind, M_bind.
    by rewrite bool_decide_eq_true_2.
Qed.

(** C10, as amended.  A token of whitespace without a line feed between
    brackets is a match wherever it stands in the output: an invocation
    with such an output and status 0 is not one the loop gives up on, a
    range of that one commit has a result that is not empty, and when the
    output is the token alone the result is the empty string alone. *)
Theorem blank_token_is_a_match ws mf commit st before tok after w :
  blank tok = true → one_line tok = true →
  let out := before +:+ "[" +:+ tok +:+ "]" +:+ after in
  run_python_script mf ("-g " +:+ commit) ws (world st) = ((0%Z, out), w) →
  let result := (get_reviewers_for_range run_cmd run_python_script
                   ws mf commit commit st).1 in
  re.findall out ≠ []
  ∧ failed (mkInvocation ("-g " +:+ commit) 0 out) = false
  ∧ (∃ l, result = Return l ∧ l ≠ [])
  ∧ (before = EmptyString → after = EmptyString → result = Return [EmptyString]).
Proof.
  intros Hblank Hline out Hrun result.
  assert (re.lazy_group (tok +:+ "]" +:+ after) = Some tok) as Hgroup.
  { by apply lazy_group_blank. }
  assert (re.findall out ≠ []) as Hout.
  { apply findall_match_later. exists tok. exact Hgroup. }
  assert (result = Return (OrderedDict.keys
                             (OrderedDict.fromkeys (str.strip <$> re.findall out))))
    as Hresult.
  { subst result. rewrite (single_commit_run _ _ _ _ _ _ Hrun).
    by rewrite bool_decide_eq_false_2. }
  split_and!; [done| | |].
  - unfold failed. cbn [inv_ret inv_out].
    rewrite (bool_decide_eq_false_2 (_ ≠ _)) by (by intros ?).
    by rewrite bool_decide_eq_false_2.
  - eexists. split; [exact Hresult|].
    destruct (re.findall out) as [|x xs] eqn:E; [done|].
    intros Hnil. assert (str.strip x ∈ @nil string) as Hin; [|by apply elem_of_nil in Hin].
    rewrite <-Hnil. apply elem_of_fromkeys. csimpl. apply list_elem_of_here.
  - intros -> ->. rewrite Hresult. subst out.
    rewrite append_empty_l.
    destruct (findall_match ("[" +:+ tok +:+ "]" +:+ EmptyString) tok Hgroup)
      as (rest & Hrest & ->).
    apply String.app_inj, String.app_inj, String.app_inj in Hrest. subst rest.
    change (re.findall EmptyString) with (@nil string). csimpl.
    by rewrite strip_blank.
Qed.

End Reviewers.

(** ** Removing the author from the list of reviewers *)

Lemma remove_first_filter x l l' :
  remove_first x l = Some l' →
  filter (λ u, u ≠ x) l' = filter (λ u, u ≠ x) l.
Proof.
  revert l'. induction l as [|y l IH]; intros l' H; simplify_eq/=.
  destruct (decide (y = x)) as [->|Hne]; simplify_eq/=.
  - by rewrite filter_cons_False by (by intros ?).
  - destruct (remove_first x l) as [l''|] eqn:E; simplify_eq/=.
    rewrite !filter_cons_True by done. f_equal. by apply IH.
Qed.

Lemma remove_first_None x l : remove_first x l = None → x ∉ l.
Proof.
  induction l as [|y l IH]; simpl; [intros _; apply not_elem_of_nil|].
  destruct (decide (y = x)) as [->|Hne]; [done|].
  destruct (remove_first x l); [done|]. intros _.
  apply not_elem_of_cons. split; [done|]. by apply IH.
Qed.

Lemma filter_absent x (l : list string) : x ∉ l → filter (λ u, u ≠ x) l = l.
Proof.
  induction l as [|y l IH]; [done|]. intros [Hne Hl]%not_elem_of_cons.
  rewrite filter_cons_True by done. f_equal. by apply IH.
Qed.

Lemma not_elem_of_filtered x (l : list string) : x ∉ filter (λ u, u ≠ x) l.
Proof. rewrite list_elem_of_filter. by intros [? _]. Qed.

Lemma while_in_remove_run {World} pr_author user_names (st : state World) :
  ∀ names, store st !! user_names = Some names →
  while_in_remove pr_author user_names st
  = (Return (),
     mkState (world st)
       (<[user_names := filter (λ u, u ≠ pr_author) names]> (store st))
       (trace st)).
Proof.
  funelim (while_in_remove pr_author user_names st); intros names Hnames.
  all: pose proof (lookup_total_correct _ _ _ Hnames) as Htot.
  - pose proof (bool_decide_eq_false_1 _ e) as Hin. rewrite Htot in Hin.
    rewrite filter_absent, insert_id by done. by destruct st.
  - clear Heqcall H0 H1. unfold list_remove in Hrm. rewrite Htot in Hrm.
    destruct (remove_first pr_author names) as [names'|] eqn:E; simplify_eq/=.
    erewrite H; [|apply lookup_insert_eq]. simpl.
    by rewrite insert_insert_eq, (remove_first_filter _ _ _ E).
  - pose proof (bool_decide_eq_true_1 _ e2) as Hin. rewrite Htot in Hin.
    clear Heqcall H H0. unfold list_remove in e0. rewrite Htot in e0.
    destruct (remove_first pr_author names) as [names'|] eqn:E; simplify_eq/=.
    by apply remove_first_None in E.
Qed.

(** ** The GitHub requests *)

Section Quiet.

Context {World : Type}.
Implicit Types st : state World.

Lemma quiet_ret {A} (a : A) : quiet (mret a : M World A).
Proof. intros st. exists []. by rewrite app_nil_r. Qed.

Lemma quiet_raise {A} e : quiet (raise e : M World A).
Proof. intros st. exists []. by rewrite app_nil_r. Qed.

Lemma quiet_print line : quiet (print line : M World unit).
Proof. intros st. exists [print_call line]. by repeat constructor. Qed.

Lemma quiet_bind {A B} (m : M World A) (f : A → M World B) :
  quiet m → (∀ a, quiet (f a)) → quiet (m ≫= f).
Proof.
  intros Hm Hf st. unfold mbind, M_bind.
  destruct (Hm st) as (evs & Htr & Hst & Hevs).
  destruct (m st) as [[a|e] st1]; [|by exists evs].
  destruct (Hf a st1) as (evs' & Htr' & Hst' & Hevs').
  exists (evs ++ evs'). cbn [snd] in *.
  rewrite Htr', Htr, Hst', Hst, app_assoc.
  split_and!; [done|done|by apply Forall_app].
Qed.

Lemma quiet_try_except {A} (body handler : M World A) :
  quiet body → quiet handler → quiet (try_except_HTTPError body handler).
Proof.
  intros Hb Hh st. unfold try_except_HTTPError.
  destruct (Hb st) as (evs & Htr & Hst & Hevs).
  destruct (body st) as [[a|e] st1]; [by exists evs|].
  destruct e; try by exists evs.
  destruct (Hh st1) as (evs' & Htr' & Hst' & Hevs').
  exists (evs ++ evs'). cbn [snd] in *.
  rewrite Htr', Htr, Hst', Hst, app_assoc.
  split_and!; [done|done|by apply Forall_app].
Qed.

Lemma quiet_raise_for_status response :
  quiet (raise_for_status response : M World unit).
Proof.
  unfold raise_for_status. case_bool_decide; [apply quiet_raise|apply quiet_ret].
Qed.

Lemma quiet_response_json response :
  quiet (response_json response : M World json).
Proof.
  unfold response_json. destruct (json_body response);
    [apply quiet_ret|apply quiet_raise].
Qed.

Lemma quiet_get key v : quiet (get key v : M World json).
Proof. destruct v; first [apply quiet_ret|apply quiet_raise]. Qed.

Lemma quiet_contains needle v : quiet (contains needle v : M World bool).
Proof. destruct v; first [apply quiet_ret|apply quiet_raise]. Qed.

Lemma quiet_deref l : quiet (deref l : M World (list string)).
Proof. intros st. exists []. by rewrite app_nil_r. Qed.

Lemma quiet_leave_pr_comment http_post token owner repo pr_number body :
  quiet (leave_pr_comment (World:=World) http_post
           token owner repo pr_number body).
Proof.
  unfold leave_pr_comment. apply quiet_bind; [|intros; apply quiet_raise_for_status].
  intros st. unfold requests_post. destruct (http_post _ _ _ _) as [r w].
  eexists [_]. by repeat constructor.
Qed.

Lemma quiet_request_failed http_post repr
  token owner repo pr_number user_names response :
  quiet (request_failed (World:=World) http_post repr
           token owner repo pr_number user_names response).
Proof.
  unfold request_failed. apply quiet_bind.
  - case_bool_decide; [|apply quiet_ret].
    apply quiet_bind; [apply quiet_response_json|intros body].
    apply quiet_bind; [apply quiet_get|intros message].
    apply quiet_contains.
  - intros [|].
    + apply quiet_bind; [apply quiet_response_json|intros body].
      apply quiet_bind; [apply quiet_get|intros message].
      apply quiet_bind; [apply quiet_print|intros _].
      apply quiet_bind; [apply quiet_deref|intros requested].
      apply quiet_leave_pr_comment.
    + case_bool_decide; [apply quiet_print|apply quiet_ret].
Qed.

End Quiet.

Section Http.

Context {World : Type}.
Variable http_get : string → headers → World → Response * World.
Variable http_post : string → json → headers → World → Response * World.
Variable repr : json → string.

(** What a call does once the author of the pull request is known. *)
Lemma add_reviewers_to_pr_run
  token owner repo pr_number user_names st names response w
  members user_members login :
  let pr_author_url := "https://api.github.com/repos/" +:+ owner +:+ "/"
                       +:+ repo +:+ "/pulls/" +:+ pr_number in
  let url := "https://api.github.com/repos/" +:+ owner +:+ "/" +:+ repo
             +:+ "/pulls/" +:+ pr_number +:+ "/requested_reviewers" in
  store st !! user_names = Some names →
  http_get pr_author_url (api_headers token) (world st) = (response, w) →
  status_code response = 200%Z →
  json_body response = Some (JObj members) →
  member "user" members = Some (JObj user_members) →
  member "login" user_members = Some (JStr login) →
  let reviewers := filter (λ u, u ≠ str.strip login) names in
  ∃ outcome st' answer rest,
    add_reviewers_to_pr http_get http_post repr
      token owner repo pr_number user_names st = (outcome, st')
    ∧ trace st'
      = trace st
        ++ requests_get_call pr_author_url (api_headers token) response
           :: requests_post_call url
                (JObj [("reviewers", JArr (JStr <$> reviewers))])
                (api_headers token) answer
           :: rest
    ∧ store st' = <[user_names := reviewers]> (store st)
    ∧ Forall is_aftermath rest.
Proof.
  intros pr_author_url url Hnames Hget Hstatus Hbody Huser Hlogin reviewers.
  unfold add_reviewers_to_pr.
  fold pr_author_url. fold url.
  unfold mbind, M_bind, requests_get. rewrite Hget.
  rewrite Hstatus, (bool_decide_eq_false_2 (200%Z ≠ 200%Z)) by (by intros ?).
  unfold response_json. rewrite Hbody. cbn [mret M_ret get].
  rewrite Huser. cbn [default from_option id get]. rewrite Hlogin.
  cbn [default from_option id strip mret M_ret].
  erewrite while_in_remove_run; [|exact Hnames].
  unfold deref. cbn [store emit world trace].
  rewrite lookup_total_insert_eq. fold reviewers.
  unfold requests_post at 1. cbn [world].
  destruct (http_post url _ (api_headers token) w) as [answer w2].
  cbn [fst snd].
  match goal with |- context [try_except_HTTPError ?b ?h ?s] =>
    assert (quiet (try_except_HTTPError b h)) as Hquiet;
    [|destruct (Hquiet s) as (rest & Htr & Hst & Hrest);
      destruct (try_except_HTTPError b h s) as [o st']] end.
  { apply quiet_try_except;
      [apply quiet_raise_for_status|apply quiet_request_failed]. }
  cbn [snd trace store emit] in Htr, Hst.
  exists o, st', answer, rest. split; [done|].
  split_and!; [|done|done]. rewrite Htr, <-!app_assoc. done.
Qed.

(** C8.  When the author of the pull request is found, the request for
    reviewers follows the lookup at once, and the list it posts is the
    list of candidates without any occurrence of the author: the author
    is not in it. *)
Theorem author_removed_before_request
  token owner repo pr_number user_names st names response w
  members user_members login :
  let pr_author_url := "https://api.github.com/repos/" +:+ owner +:+ "/"
                       +:+ repo +:+ "/pulls/" +:+ pr_number in
  let url := "https://api.github.com/repos/" +:+ owner +:+ "/" +:+ repo
             +:+ "/pulls/" +:+ pr_number +:+ "/requested_reviewers" in
  store st !! user_names = Some names →
  http_get pr_author_url (api_headers token) (world st) = (response, w) →
  status_code response = 200%Z →
  json_body response = Some (JObj members) →
  member "user" members = Some (JObj user_members) →
  member "login" user_members = Some (JStr login) →
  let pr_author := str.strip login in
  let run := add_reviewers_to_pr http_get http_post repr
               token owner repo pr_number user_names in
  ∃ posted answer rest,
    events_of run st
    = requests_get_call pr_author_url (api_headers token) response
      :: requests_post_call url (JObj [("reviewers", JArr (JStr <$> posted))])
           (api_headers token) answer
      :: rest
    ∧ posted = filter (λ u, u ≠ pr_author) names
    ∧ (pr_author ∉ posted)
    ∧ Forall is_aftermath rest.
Proof.
  intros pr_author_url url Hnames Hget Hstatus Hbody Huser Hlogin
    pr_author run.
  destruct (add_reviewers_to_pr_run token owner repo pr_number user_names
              st names response w members user_members login
              Hnames Hget Hstatus Hbody Huser Hlogin)
    as (o & st' & answer & rest & Hrun & Htr & _ & Hrest).
  exists (filter (λ u, u ≠ pr_author) names), answer, rest.
  split_and!; [|done|apply not_elem_of_filtered|done].
  apply events_of_app. subst run. by rewrite Hrun.
Qed.

(** C9.  When the author of the pull request is found, the list object of
    the caller holds, after the call and however the call ends, the
    candidates other than the author, each as often and in the order it
    stood; the other objects are as they were. *)
Theorem caller_list_loses_author
  token owner repo pr_number user_names st names response w
  members user_members login :
  let pr_author_url := "https://api.github.com/repos/" +:+ owner +:+ "/"
                       +:+ repo +:+ "/pulls/" +:+ pr_number in
  store st !! user_names = Some names →
  http_get pr_author_url (api_headers token) (world st) = (response, w) →
  status_code response = 200%Z →
  json_body response = Some (JObj members) →
  member "user" members = Some (JObj user_members) →
  member "login" user_members = Some (JStr login) →
  let pr_author := str.strip login in
  let after := store (add_reviewers_to_pr http_get http_post repr
                        token owner repo pr_number user_names st).2 in
  after !! user_names = Some (filter (λ u, u ≠ pr_author) names)
  ∧ (pr_author ∉ filter (λ u, u ≠ pr_author) names)
  ∧ (∀ other, other ≠ user_names → after !! other = store st !! other).
Proof.
  intros pr_author_url Hnames Hget Hstatus Hbody Huser Hlogin pr_author after.
  destruct (add_reviewers_to_pr_run token owner repo pr_number user_names
              st names response w members user_members login
              Hnames Hget Hstatus Hbody Huser Hlogin)
    as (o & st' & answer & rest & Hrun & _ & Hst & _).
  subst after. rewrite Hrun. cbn [snd]. rewrite Hst.
  split_and!.
  - apply lookup_insert_eq.
  - apply not_elem_of_filtered.
  - intros other Hother. by apply lookup_insert_ne.
Qed.

(** C7, as amended.  A response with a success status whose body is an
    object with the member merge_commit_sha: that member is returned.  A
    response with a client or server error status, 400 to 599: the empty
    string is returned, after one printed line with the reason, and
    nothing is raised. *)
Theorem get_pr_sha_outcomes token owner repo pr_number st response w :
  let url := "https://api.github.com/repos/" +:+ owner +:+ "/" +:+ repo
             +:+ "/pulls/" +:+ pr_number in
  http_get url (api_headers token) (world st) = (response, w) →
  let run := get_pr_sha http_get repr token owner repo pr_number in
  ((200 ≤ status_code response < 300)%Z →
   ∀ members sha,
     json_body response = Some (JObj members) →
     member "merge_commit_sha" members = Some sha →
     (run st).1 = Return sha)
  ∧ ((400 ≤ status_code response < 600)%Z →
     run st
     = (Return (JStr EmptyString),
        mkState w (store st)
          (trace st
           ++ [requests_get_call url (api_headers token) response;
               print_call ("::error title=HTTP Error!::"
                           +:+ "Error getting PR Commit Info: "
                           +:+ reason response)]))).
Proof.
  intros url Hget run. subst run. unfold get_pr_sha. fold url.
  unfold mbind, M_bind, requests_get. rewrite Hget.
  unfold try_except_HTTPError, raise_for_status, mbind, M_bind.
  split.
  - intros Hok members sha Hbody Hsha.
    rewrite bool_decide_eq_false_2 by lia. cbn [mret M_ret].
    unfold response_json. rewrite Hbody. cbn [mret M_ret getitem].
    by rewrite Hsha.
  - intros Herr. rewrite bool_decide_eq_true_2 by done.
    unfold raise, print, emit. cbn. by rewrite <-app_assoc.
Qed.

End Http.

(** ** The properties on scripted runs *)

Lemma two_commits_scenario_witness :
  (Scripted.get_reviewers_for_range "ws" "GetMaintainer.py" "master" "HEAD"
     Runs.two_commits).1
  = Return ["alice"; "bob"; "carol"].
Proof.
  apply (two_commits_scenario Scripted.run_cmd Scripted.run_python_script
           "ws" "GetMaintainer.py" "master" "HEAD" Runs.two_commits
           "A" "B" ("A" +:+ LF +:+ "B")
           (Scripted.mkWorld []
              [(0%Z, "Reviewed-by: [alice] [bob]");
               (0%Z, "Reviewed-by: [bob] [carol]")] [])
           (Scripted.mkWorld [] [(0%Z, "Reviewed-by: [bob] [carol]")] [])
           (Scripted.mkWorld [] [] [])).
  - discriminate.
  - reflexivity.
  - reflexivity.
  - reflexivity.
  - reflexivity.
Defined.

Lemma result_unique_in_first_occurrence_order_witness :
  NoDup ["alice"; "bob"; "carol"]
  ∧ (∀ x, x ∈ ["alice"; "bob"; "carol"]
          ↔ x ∈ str.strip
                <$> match_stream
                      (events_of
                         (get_reviewers_for_range Scripted.run_cmd
                            Scripted.run_python_script
                            "ws" "GetMaintainer.py" "master" "HEAD")
                         Runs.two_commits))
  ∧ (∀ x y,
       occurs_before x y
         (str.strip
            <$> match_stream
                  (events_of
                     (get_reviewers_for_range Scripted.run_cmd
                        Scripted.run_python_script
                        "ws" "GetMaintainer.py" "master" "HEAD")
                     Runs.two_commits))
       → occurs_before x y ["alice"; "bob"; "carol"]).
Proof.
  apply (result_unique_in_first_occurrence_order Scripted.run_cmd
           Scripted.run_python_script "ws" "GetMaintainer.py" "master" "HEAD"
           Runs.two_commits ["alice"; "bob"; "carol"]).
  - reflexivity.
  - discriminate.
Defined.

Lemma commit_listing_failure_witness :
  get_reviewers_for_range Scripted.run_cmd Scripted.run_python_script
    "ws" "GetMaintainer.py" "master" "HEAD" Runs.bad_revision
  = (Return [],
     mkState (Scripted.mkWorld [] [] []) ∅
       [RunCmd_call "git" "log --format=format:%H master..HEAD" "ws" 128
          "fatal: bad revision";
        print_call ("::error title=Commit Lookup Error!::"
                    +:+ "Error getting branch commits: [128]: "
                    +:+ "fatal: bad revision")])
  ∧ substring_of "128"
      ("::error title=Commit Lookup Error!::"
       +:+ "Error getting branch commits: [128]: fatal: bad revision")
  ∧ substring_of "fatal: bad revision"
      ("::error title=Commit Lookup Error!::"
       +:+ "Error getting branch commits: [128]: fatal: bad revision")
  ∧ script_calls
      (events_of
         (get_reviewers_for_range Scripted.run_cmd Scripted.run_python_script
            "ws" "GetMaintainer.py" "master" "HEAD") Runs.bad_revision)
    = [].
Proof.
  apply (commit_listing_failure Scripted.run_cmd Scripted.run_python_script
           "ws" "GetMaintainer.py" "master" "HEAD" Runs.bad_revision
           128%Z "fatal: bad revision" (Scripted.mkWorld [] [] [])).
  - discriminate.
  - reflexivity.
  - discriminate.
Defined.

Lemma failing_invocation_empties_result_witness :
  (Scripted.get_reviewers_for_range "ws" "GetMaintainer.py" "master" "HEAD"
     Runs.second_commit_fails).1 = Return []
  ∧ ∃ pre c,
      script_calls
        (events_of
           (get_reviewers_for_range Scripted.run_cmd
              Scripted.run_python_script
              "ws" "GetMaintainer.py" "master" "HEAD")
           Runs.second_commit_fails)
      = pre ++ [c]
      ∧ Forall (λ c, failed c = false) pre
      ∧ failed c = true.
Proof.
  apply (failing_invocation_empties_result Scripted.run_cmd
           Scripted.run_python_script "ws" "GetMaintainer.py" "master" "HEAD"
           Runs.second_commit_fails).
  vm_compute. right. left. reflexivity.
Defined.

(** C6.  A commit for which the maintainer tool names nobody: the call
    returns the empty list, and the run of the tool is all there is in the
    trace; no line is printed. *)
Theorem zero_matches_without_diagnostic :
  Scripted.get_reviewers_for_range "ws" "GetMaintainer.py" "0c5a1f3" "0c5a1f3"
    Runs.nobody_named
  = (Return [],
     mkState (Scripted.mkWorld [] [] []) ∅
       [RunPythonScript_call "GetMaintainer.py" "-g 0c5a1f3" "ws" 0
          "No maintainers found"])
  ∧ printed
      (trace (Scripted.get_reviewers_for_range
                "ws" "GetMaintainer.py" "0c5a1f3" "0c5a1f3"
                Runs.nobody_named).2)
    = [].
Proof. by split. Qed.

(** The same holds in every world: a range of one commit with a successful
    but empty answer ends without a printed line. *)
Lemma zero_matches_silent {World}
  (run_cmd run_python_script :
     string → string → string → World → (Z * string) * World)
  ws mf commit st out w :
  run_python_script mf ("-g " +:+ commit) ws (world st) = ((0%Z, out), w) →
  re.findall out = [] →
  get_reviewers_for_range run_cmd run_python_script ws mf commit commit st
  = (Return [],
     mkState w (store st)
       (trace st ++ [RunPythonScript_call mf ("-g " +:+ commit) ws 0 out])).
Proof.
  intros Hrun Hnone.
  unfold get_reviewers_for_range, range_commits, mbind, M_bind.
  rewrite bool_decide_eq_true_2 by done. cbn [mret M_ret].
  unfold reviewers_of_commits, mbind, M_bind.
  rewrite for_commit_sha_cons, Hrun. cbn [fst snd]. cbv zeta.
  rewrite (bool_decide_eq_false_2 (0%Z ≠ 0%Z)) by (by intros ?).
  by rewrite bool_decide_eq_true_2.
Qed.

(** C7, the statement with every status outside 200 to 299 counted as a
    failure, fails for 304: nothing is printed, and the decoding of the
    empty body raises. *)
Lemma get_pr_sha_not_modified :
  ¬ (200 ≤ status_code Runs.not_modified < 300)%Z
  ∧ Scripted.get_pr_sha "token" "tianocore" "edk2" "1"
      (Runs.answers [Runs.not_modified])
    = (Raise JSONDecodeError,
       mkState (Scripted.mkWorld [] [] []) ∅
         [requests_get_call "https://api.github.com/repos/tianocore/edk2/pulls/1"
            (api_headers "token") Runs.not_modified]).
Proof. split; [|reflexivity]. cbn. lia. Qed.

Lemma get_pr_sha_outcomes_witness :
  (Scripted.get_pr_sha "token" "tianocore" "edk2" "1"
     (Runs.answers [Runs.pull_request])).1
  = Return (JStr "0c5a1f3")
  ∧ Scripted.get_pr_sha "token" "tianocore" "edk2" "1"
      (Runs.answers [Runs.not_found])
    = (Return (JStr EmptyString),
       mkState (Scripted.mkWorld [] [] []) ∅
         [requests_get_call "https://api.github.com/repos/tianocore/edk2/pulls/1"
            (api_headers "token") Runs.not_found;
          print_call ("::error title=HTTP Error!::"
                      +:+ "Error getting PR Commit Info: Not Found")]).
Proof.
  split.
  - eapply (proj1 (get_pr_sha_outcomes Scripted.http_get Scripted.repr
                     "token" "tianocore" "edk2" "1"
                     (Runs.answers [Runs.pull_request]) Runs.pull_request
                     (Scripted.mkWorld [] [] []) eq_refl)).
    + cbn. lia.
    + reflexivity.
    + reflexivity.
  - apply (proj2 (get_pr_sha_outcomes Scripted.http_get Scripted.repr
                    "token" "tianocore" "edk2" "1"
                    (Runs.answers [Runs.not_found]) Runs.not_found
                    (Scripted.mkWorld [] [] []) eq_refl)).
    cbn. lia.
Defined.

Lemma author_removed_before_request_witness :
  ∃ posted answer rest,
    events_of
      (add_reviewers_to_pr Scripted.http_get Scripted.http_post Scripted.repr
         "token" "tianocore" "edk2" "1" 1%positive)
      Runs.candidates
    = requests_get_call "https://api.github.com/repos/tianocore/edk2/pulls/1"
        (api_headers "token") Runs.pull_request
      :: requests_post_call
           "https://api.github.com/repos/tianocore/edk2/pulls/1/requested_reviewers"
           (JObj [("reviewers", JArr (JStr <$> posted))])
           (api_headers "token") answer
      :: rest
    ∧ posted = filter (λ u, u ≠ str.strip "bob") ["alice"; "bob"; "carol"; "bob"]
    ∧ (str.strip "bob" ∉ posted)
    ∧ Forall is_aftermath rest.
Proof.
  apply (author_removed_before_request Scripted.http_get Scripted.http_post
           Scripted.repr "token" "tianocore" "edk2" "1" 1%positive
           Runs.candidates ["alice"; "bob"; "carol"; "bob"] Runs.pull_request
           (Scripted.mkWorld [] [] [mkResponse 201 "Created" None])
           [("merge_commit_sha", JStr "0c5a1f3");
            ("user", JObj [("login", JStr "bob")])]
           [("login", JStr "bob")] "bob").
  - reflexivity.
  - reflexivity.
  - reflexivity.
  - reflexivity.
  - reflexivity.
  - reflexivity.
Defined.

Lemma caller_list_loses_author_witness :
  store (Scripted.add_reviewers_to_pr "token" "tianocore" "edk2" "1" 1%positive
           Runs.candidates).2 !! 1%positive
  = Some (filter (λ u, u ≠ str.strip "bob") ["alice"; "bob"; "carol"; "bob"])
  ∧ (str.strip "bob"
       ∉ filter (λ u, u ≠ str.strip "bob") ["alice"; "bob"; "carol"; "bob"])
  ∧ (∀ other, other ≠ 1%positive →
       store (Scripted.add_reviewers_to_pr "token" "tianocore" "edk2" "1"
                1%positive Runs.candidates).2 !! other
       = store Runs.candidates !! other).
Proof.
  apply (caller_list_loses_author Scripted.http_get Scripted.http_post
           Scripted.repr "token" "tianocore" "edk2" "1" 1%positive
           Runs.candidates ["alice"; "bob"; "carol"; "bob"] Runs.pull_request
           (Scripted.mkWorld [] [] [mkResponse 201 "Created" None])
           [("merge_commit_sha", JStr "0c5a1f3");
            ("user", JObj [("login", JStr "bob")])]
           [("login", JStr "bob")] "bob").
  - reflexivity.
  - reflexivity.
  - reflexivity.
  - reflexivity.
  - reflexivity.
  - reflexivity.
Defined.

(** C10, the statement for every whitespace between the brackets, fails for
    the line feed: it is whitespace, the pattern finds nothing in the output,
    and the call returns the empty list without a printed line. *)
Lemma line_feed_token_is_no_match :
  blank LF = true
  ∧ re.findall ("[" +:+ LF +:+ "]") = []
  ∧ Scripted.get_reviewers_for_range "ws" "GetMaintainer.py" "0c5a1f3" "0c5a1f3"
      Runs.line_feed_token
    = (Return [],
       mkState (Scripted.mkWorld [] [] []) ∅
         [RunPythonScript_call "GetMaintainer.py" "-g 0c5a1f3" "ws" 0
            ("[" +:+ LF +:+ "]")]).
Proof. by split_and!. Qed.

Lemma blank_token_is_a_match_witness :
  re.findall (EmptyString +:+ "[" +:+ " " +:+ "]" +:+ EmptyString) ≠ []
  ∧ failed (mkInvocation ("-g " +:+ "0c5a1f3") 0
              (EmptyString +:+ "[" +:+ " " +:+ "]" +:+ EmptyString)) = false
  ∧ (∃ l, (get_reviewers_for_range Scripted.run_cmd Scripted.run_python_script
             "ws" "GetMaintainer.py" "0c5a1f3" "0c5a1f3" Runs.blank_token).1
          = Return l ∧ l ≠ [])
  ∧ (EmptyString = EmptyString → EmptyString = EmptyString →
     (get_reviewers_for_range Scripted.run_cmd Scripted.run_python_script
        "ws" "GetMaintainer.py" "0c5a1f3" "0c5a1f3" Runs.blank_token).1
     = Return [EmptyString]).
Proof.
  apply (blank_token_is_a_match Scripted.run_cmd Scripted.run_python_script
           "ws" "GetMaintainer.py" "0c5a1f3" Runs.blank_token
           EmptyString " " EmptyString (Scripted.mkWorld [] [] [])).
  - reflexivity.
  - reflexivity.
  - reflexivity.
Defined.

(** * Further properties *)

(** ** Trimming and tokens *)

Lemma all_chars_lstrip f s : all_chars f s = true → all_chars f (str.lstrip s) = true.
Proof.
  induction s as [|c s IH]; [done|]. simpl. intros [Hc Hs]%andb_prop.
  destruct (str.isspace c); [by apply IH|]. simpl. by rewrite Hc, Hs.
Qed.

Lemma all_chars_rstrip f s : all_chars f s = true → all_chars f (str.rstrip s) = true.
Proof.
  induction s as [|c s IH]; [done|]. simpl. intros [Hc Hs]%andb_prop.
  specialize (IH Hs). destruct (str.rstrip s) as [|c' r].
  - destruct (str.isspace c); [done|]. simpl. by rewrite Hc.
  - change (all_chars f (String c (String c' r)))
      with (f c && all_chars f (String c' r)).
    by rewrite Hc, IH.
Qed.

Lemma all_chars_strip f s : all_chars f s = true → all_chars f (str.strip s) = true.
Proof. intros H. by apply all_chars_rstrip, all_chars_lstrip. Qed.

Lemma rstrip_idempotent s : str.rstrip (str.rstrip s) = str.rstrip s.
Proof.
  induction s as [|c s IH]; [done|]. simpl.
  destruct (str.rstrip s) as [|c' r] eqn:E.
  - destruct (str.isspace c) eqn:Hc; [done|]. simpl. by rewrite Hc.
  - cbn [str.rstrip]. cbn [str.rstrip] in IH. by rewrite IH.
Qed.

Lemma lstrip_head s :
  str.lstrip s = EmptyString
  ∨ ∃ c r, str.lstrip s = String c r ∧ str.isspace c = false.
Proof.
  induction s as [|c s IH]; [by left|]. simpl.
  destruct (str.isspace c) eqn:Hc; [done|]. right. by exists c, s.
Qed.

Lemma rstrip_head c r :
  str.isspace c = false → ∃ r', str.rstrip (String c r) = String c r'.
Proof.
  intros Hc. simpl. destruct (str.rstrip r); [|by eexists].
  rewrite Hc. by eexists.
Qed.

Lemma strip_idempotent s : str.strip (str.strip s) = str.strip s.
Proof.
  unfold str.strip. destruct (lstrip_head s) as [->|(c & r & -> & Hc)]; [done|].
  destruct (rstrip_head c r Hc) as [r' Hr]. rewrite Hr.
  cbn [str.lstrip]. rewrite Hc, <-Hr. apply rstrip_idempotent.
Qed.

Lemma lazy_group_chars s g :
  re.lazy_group s = Some g →
  all_chars not_closing_bracket g = true ∧ all_chars not_line_feed g = true.
Proof.
  revert g. induction s as [|c s IH]; intros g; simpl; [done|].
  destruct (Ascii.eqb c "]") eqn:Hb; [by intros [= <-]|].
  destruct (Ascii.eqb c "010") eqn:Hn; [done|].
  destruct (re.lazy_group s) as [g'|]; simpl; [|done].
  intros [= <-]. destruct (IH _ eq_refl) as [H1 H2]. simpl.
  unfold not_closing_bracket at 1, not_line_feed at 1. by rewrite Hb, Hn, H1, H2.
Qed.

Lemma scan_chars n s :
  Forall (λ g, all_chars not_closing_bracket g = true
               ∧ all_chars not_line_feed g = true) (re.scan n s).
Proof.
  revert n. induction s as [|c s IH]; intros n; [done|]. cbn [re.scan].
  destruct n as [|n]; [|apply IH].
  destruct (re.match_at (String c s)) as [g|] eqn:E; [|apply IH].
  constructor; [|apply IH].
  destruct c as [[] [] [] [] [] [] [] []]; simpl in E; try done.
  by apply lazy_group_chars in E.
Qed.

(** ** The trace of the loop *)

Lemma loop_trace_no_request mf ws commits evs finished :
  loop_trace mf ws commits evs finished →
  Forall (λ ev, is_request ev = false ∧ is_RunCmd ev = false) evs.
Proof. induction 1; repeat constructor; done. Qed.

Lemma loop_trace_error_last mf ws commits evs finished c :
  loop_trace mf ws commits evs finished →
  c ∈ script_calls evs → inv_ret c ≠ 0%Z →
  finished = false
  ∧ last evs = Some (print_call (lookup_error_line (inv_ret c) (inv_out c)))
  ∧ last (script_calls evs) = Some c.
Proof.
  induction 1 as [|commit commits out evs finished Hout Hloop IH
                  |commit commits ret out Hret|commit commits out Hout];
    csimpl; intros Hc Hne.
  - by apply elem_of_nil in Hc.
  - apply elem_of_cons in Hc as [->|Hc]; [done|].
    destruct (IH Hc Hne) as (-> & Hlast & Hcalls). split; [done|].
    destruct evs as [|ev evs]; [done|].
    destruct (script_calls (ev :: evs)) as [|c' cs] eqn:E; [done|].
    split; [exact Hlast|exact Hcalls].
  - apply list_elem_of_singleton in Hc as ->. done.
  - apply list_elem_of_singleton in Hc as ->. done.
Qed.

Section MoreReviewers.

Context {World : Type}.
Variable run_cmd : string → string → string → World → (Z * string) * World.
Variable run_python_script :
  string → string → string → World → (Z * string) * World.

Lemma for_commit_sha_trace ws mf commits raw st :
  ∃ evs (finished : bool) st',
    for_commit_sha run_python_script ws mf commits raw st
    = (Return (if finished
               then Fallthrough (R:=list string) (raw ++ match_stream evs)
               else Returned []), st')
    ∧ trace st' = trace st ++ evs
    ∧ store st' = store st
    ∧ loop_trace mf ws commits evs finished.
Proof.
  revert raw st. induction commits as [|commit commits IH]; intros raw st.
  { exists (@nil event), true, st. rewrite !app_nil_r.
    split_and!; try done. constructor. }
  rewrite for_commit_sha_cons.
  destruct (run_python_script mf ("-g " +:+ commit) ws (world st))
    as [[ret out] w]. cbn [fst snd]. cbv zeta.
  case_bool_decide as Hret.
  { eexists [_; _], false, _. split; [done|]. cbn [trace store emit].
    rewrite <-app_assoc. split_and!; try done. by constructor. }
  subst ret. case_bool_decide as Hout.
  { eexists [_], false, _. split; [done|]. cbn [trace store].
    split_and!; try done. by constructor. }
  match goal with |- context [for_commit_sha _ _ _ _ ?raw' ?st1] =>
    destruct (IH raw' st1) as (evs & finished & st' & -> & Htr & Hst & Hloop) end.
  cbn [trace store emit] in Htr, Hst.
  exists (RunPythonScript_call mf ("-g " +:+ commit) ws 0 out
          :: print_call (commit_line commit out) :: evs), finished, st'.
  split_and!.
  - destruct finished; [|done]. unfold match_stream. csimpl.
    fold (match_stream evs). by rewrite app_assoc.
  - by rewrite Htr, <-!app_assoc.
  - done.
  - by constructor.
Qed.

Lemma reviewers_of_commits_trace ws mf commits st :
  ∃ evs (finished : bool) st',
    let l := if finished
             then OrderedDict.keys
                    (OrderedDict.fromkeys (str.strip <$> match_stream evs))
             else [] in
    reviewers_of_commits run_python_script ws mf commits st = (Return l, st')
    ∧ trace st'
      = trace st ++ evs ++ (if finished then [print_call (total_line l)] else [])
    ∧ store st' = store st
    ∧ loop_trace mf ws commits evs finished.
Proof.
  unfold reviewers_of_commits, mbind, M_bind.
  destruct (for_commit_sha_trace ws mf commits [] st)
    as (evs & finished & st' & -> & Htr & Hst & Hloop).
  destruct finished.
  - eexists evs, true, _. cbn [app]. split; [done|].
    cbn [trace store emit]. rewrite Htr, <-app_assoc. done.
  - exists evs, false, st'. rewrite app_nil_r. done.
Qed.

(** The shape of every run: the listing of the commits unless the range is
    one commit, then the loop, then the line of the total when the loop came
    to its end. *)
Lemma get_reviewers_for_range_trace ws mf range_start range_end st :
  let run := get_reviewers_for_range run_cmd run_python_script
               ws mf range_start range_end in
  (∃ ret out line,
      range_start ≠ range_end ∧ ret ≠ 0%Z ∧ (run st).1 = Return []
      ∧ events_of run st
        = [RunCmd_call "git"
             ("log --format=format:%H " +:+ range_start +:+ ".." +:+ range_end)
             ws ret out; print_call line])
  ∨ (∃ listing commits evs (finished : bool),
       let l := if finished
                then OrderedDict.keys
                       (OrderedDict.fromkeys (str.strip <$> match_stream evs))
                else [] in
       (run st).1 = Return l
       ∧ events_of run st
         = listing ++ evs
           ++ (if finished then [print_call (total_line l)] else [])
       ∧ loop_trace mf ws commits evs finished
       ∧ ((range_start = range_end ∧ listing = [] ∧ commits = [range_start])
          ∨ (range_start ≠ range_end
             ∧ ∃ out,
                 listing
                 = [RunCmd_call "git"
                      ("log --format=format:%H " +:+ range_start
                       +:+ ".." +:+ range_end) ws 0 out]
                 ∧ commits = str.splitlines out))).
Proof.
  intros run. subst run. unfold events_of.
  unfold get_reviewers_for_range, range_commits, mbind, M_bind.
  case_bool_decide as Hrange.
  { right. cbn [mret M_ret].
    destruct (reviewers_of_commits_trace ws mf [range_start] st)
      as (evs & finished & st' & Hrun & Htr & _ & Hloop).
    cbv zeta in Hrun. rewrite Hrun. cbn [fst snd]. rewrite Htr, drop_app_length.
    exists [], [range_start], evs, finished. split_and!; try done. by left. }
  unfold RunCmd. destruct (run_cmd _ _ _ _) as [[ret out] w]. cbn [fst snd].
  case_bool_decide as Hret.
  { left. exists ret, out. eexists. split_and!; try done.
    cbn [print emit trace snd mret M_ret]. by rewrite <-app_assoc, drop_app_length. }
  subst ret. right. cbn [mret M_ret].
  match goal with |- context [reviewers_of_commits _ _ _ ?cs ?st1] =>
    destruct (reviewers_of_commits_trace ws mf cs st1)
      as (evs & finished & st' & Hrun & Htr & _ & Hloop) end.
  cbv zeta in Hrun. rewrite Hrun. cbn [fst snd]. rewrite Htr.
  cbn [trace emit]. rewrite <-app_assoc, drop_app_length.
  eexists [_], _, evs, finished. split_and!; try done. right. split; [done|].
  by eexists.
Qed.

End MoreReviewers.

Lemma loop_trace_params mf ws commits evs finished :
  loop_trace mf ws commits evs finished →
  inv_params <$> script_calls evs `prefix_of` (λ c, "-g " +:+ c) <$> commits
  ∧ (finished = true →
     inv_params <$> script_calls evs = (λ c, "-g " +:+ c) <$> commits).
Proof.
  induction 1 as [|commit commits out evs finished Hout Hloop [IH1 IH2]
                  |commit commits ret out Hret|commit commits out Hout]; csimpl.
  - done.
  - split; [by apply prefix_cons|]. intros Hf. by rewrite IH2.
  - split; [|done]. by apply prefix_cons, prefix_nil.
  - split; [|done]. by apply prefix_cons, prefix_nil.
Qed.

Section ReviewerExtras.

Context {World : Type}.
Variable run_cmd : string → string → string → World → (Z * string) * World.
Variable run_python_script :
  string → string → string → World → (Z * string) * World.

(** After a successful listing the call goes on with the listed commits. *)
Lemma get_reviewers_for_range_listed ws mf range_start range_end st out w :
  range_start ≠ range_end →
  run_cmd "git"
    ("log --format=format:%H " +:+ range_start +:+ ".." +:+ range_end)
    ws (world st) = ((0%Z, out), w) →
  get_reviewers_for_range run_cmd run_python_script
    ws mf range_start range_end st
  = reviewers_of_commits run_python_script ws mf (str.splitlines out)
      (mkState w (store st)
         (trace st
          ++ [RunCmd_call "git"
                ("log --format=format:%H " +:+ range_start
                 +:+ ".." +:+ range_end) ws 0 out])).
Proof.
  intros Hrange Hgit.
  unfold get_reviewers_for_range, range_commits, mbind, M_bind, RunCmd.
  rewrite bool_decide_eq_false_2, Hgit by done. cbn [fst snd].
  by rewrite (bool_decide_eq_false_2 (0%Z ≠ 0%Z)) by (by intros ?).
Qed.

(** X1.  An invocation of the maintainer tool with a status other than zero
    is the last one of the run; the last thing the run does is to print the
    error line with that status and the captured output, and the result is
    empty. *)
Theorem lookup_failure_is_reported ws mf range_start range_end st c :
  let run := get_reviewers_for_range run_cmd run_python_script
               ws mf range_start range_end in
  c ∈ script_calls (events_of run st) → inv_ret c ≠ 0%Z →
  (run st).1 = Return []
  ∧ last (events_of run st)
    = Some (print_call (lookup_error_line (inv_ret c) (inv_out c)))
  ∧ last (script_calls (events_of run st)) = Some c.
Proof.
  intros run Hc Hret.
  destruct (get_reviewers_for_range_trace run_cmd run_python_script
              ws mf range_start range_end st)
    as [(ret & out & line & _ & _ & _ & Hevs)
       |(listing & commits & evs & finished & Hl & Hevs & Hloop & Hlisting)].
  { fold run in Hevs. rewrite Hevs in Hc. by apply elem_of_nil in Hc. }
  fold run in Hl, Hevs. cbv zeta in Hl, Hevs.
  assert (script_calls listing = []) as Hnone.
  { by destruct Hlisting as [(_ & -> & _)|(_ & out & -> & _)]. }
  assert (script_calls (events_of run st) = script_calls evs) as Hcalls.
  { rewrite Hevs, !script_calls_app, Hnone. by destruct finished; rewrite ?app_nil_r. }
  rewrite Hcalls in *.
  destruct (loop_trace_error_last _ _ _ _ _ _ Hloop Hc Hret)
    as (-> & Hlast & Hlastc).
  split_and!; [done| |done].
  rewrite Hevs, app_nil_r, last_app. by rewrite Hlast.
Qed.

(** X2.  A listing without any commit: the maintainer tool is not run, the
    line of the total is printed with nothing in it, and the result is
    empty. *)
Theorem empty_listing ws mf range_start range_end st out w :
  range_start ≠ range_end →
  run_cmd "git"
    ("log --format=format:%H " +:+ range_start +:+ ".." +:+ range_end)
    ws (world st) = ((0%Z, out), w) →
  str.splitlines out = [] →
  get_reviewers_for_range run_cmd run_python_script
    ws mf range_start range_end st
  = (Return [],
     mkState w (store st)
       (trace st
        ++ [RunCmd_call "git"
              ("log --format=format:%H " +:+ range_start
               +:+ ".." +:+ range_end) ws 0 out;
            print_call "::debug title=Total Reviewer Set::"])).
Proof.
  intros Hrange Hgit Hnone.
  rewrite (get_reviewers_for_range_listed _ _ _ _ _ _ _ Hrange Hgit), Hnone.
  unfold reviewers_of_commits, mbind, M_bind. cbn.
  unfold mret, M_ret, emit. cbn [trace store world]. by rewrite <-app_assoc.
Qed.

(** X3.  After a successful listing the maintainer tool is run on the listed
    commits in their order, each as [-g commit], up to the commit the run
    ends at; a run with a result that is not empty has run it on all of
    them. *)
Theorem tool_runs_follow_listing ws mf range_start range_end st out w :
  range_start ≠ range_end →
  run_cmd "git"
    ("log --format=format:%H " +:+ range_start +:+ ".." +:+ range_end)
    ws (world st) = ((0%Z, out), w) →
  let run := get_reviewers_for_range run_cmd run_python_script
               ws mf range_start range_end in
  inv_params <$> script_calls (events_of run st)
    `prefix_of` (λ c, "-g " +:+ c) <$> str.splitlines out
  ∧ ((run st).1 ≠ Return [] →
     inv_params <$> script_calls (events_of run st)
     = (λ c, "-g " +:+ c) <$> str.splitlines out).
Proof.
  intros Hrange Hgit run. subst run. unfold events_of.
  rewrite (get_reviewers_for_range_listed _ _ _ _ _ _ _ Hrange Hgit).
  match goal with |- context [reviewers_of_commits _ _ _ ?cs ?st1] =>
    destruct (reviewers_of_commits_trace run_python_script ws mf cs st1)
      as (evs & finished & st' & Hrun & Htr & _ & Hloop) end.
  cbv zeta in Hrun. rewrite Hrun. cbn [fst snd]. rewrite Htr. cbn [trace].
  rewrite <-app_assoc, drop_app_length. csimpl.
  assert (script_calls (evs ++ (if finished
                                then [print_call _] else []))
          = script_calls evs) as ->.
  { rewrite script_calls_app. by destruct finished; rewrite app_nil_r. }
  destruct (loop_trace_params _ _ _ _ _ Hloop) as [Hpre Hall].
  split; [done|]. intros Hne. apply Hall. by destruct finished.
Qed.

(** X4.  Every identifier of a result is trimmed, and holds neither a
    closing bracket nor a line feed. *)
Theorem reviewers_are_trimmed ws mf range_start range_end st l x :
  (get_reviewers_for_range run_cmd run_python_script
     ws mf range_start range_end st).1 = Return l →
  x ∈ l →
  str.strip x = x
  ∧ all_chars not_closing_bracket x = true
  ∧ all_chars not_line_feed x = true.
Proof.
  intros Hl Hx.
  destruct (get_reviewers_for_range_run run_cmd run_python_script
              ws mf range_start range_end st)
    as (l' & st' & evs & Hrun & _ & _ & Hcases).
  rewrite Hrun in Hl. simplify_eq/=.
  destruct Hcases as [[-> _]|[[-> _]|[-> _]]];
    [|by apply elem_of_nil in Hx|by apply elem_of_nil in Hx].
  apply (proj1 (elem_of_fromkeys _ _)) in Hx.
  apply list_elem_of_fmap in Hx as (t & -> & Ht).
  unfold match_stream in Ht.
  apply list_elem_of_bind in Ht as (c & Ht & _).
  pose proof (scan_chars 0 (inv_out c)) as Hall.
  rewrite Forall_forall in Hall. destruct (Hall t Ht) as [H1 H2].
  split_and!; [apply strip_idempotent|by apply all_chars_strip..].
Qed.

(** X5.  A call never raises, leaves every list object as it was, and makes
    no request; nothing but the listing of the commits, runs of the
    maintainer tool and printed lines is in its trace. *)
Theorem reviewer_resolution_is_confined ws mf range_start range_end st :
  let run := get_reviewers_for_range run_cmd run_python_script
               ws mf range_start range_end in
  (∃ l, (run st).1 = Return l)
  ∧ store (run st).2 = store st
  ∧ Forall (λ ev, is_request ev = false) (events_of run st).
Proof.
  intros run. subst run.
  destruct (get_reviewers_for_range_run run_cmd run_python_script
              ws mf range_start range_end st)
    as (l & st' & evs0 & Hrun & _ & Hst & _).
  split; [exists l; by rewrite Hrun|]. split; [by rewrite Hrun|].
  destruct (get_reviewers_for_range_trace run_cmd run_python_script
              ws mf range_start range_end st)
    as [(ret & out & line & _ & _ & _ & ->)
       |(listing & commits & evs & finished & _ & -> & Hloop & Hlisting)].
  { by repeat constructor. }
  rewrite !Forall_app. split_and!.
  - by destruct Hlisting as [(_ & -> & _)|(_ & out & -> & _)];
      repeat constructor.
  - eapply Forall_impl; [by eapply loop_trace_no_request|]. by intros ? [].
  - destruct finished; by repeat constructor.
Qed.

(** X6.  A run with a result that is not empty ends by printing the line of
    the total, which lists exactly the result, joined by comma and blank. *)
Theorem total_line_reports_result ws mf range_start range_end st l :
  let run := get_reviewers_for_range run_cmd run_python_script
               ws mf range_start range_end in
  (run st).1 = Return l → l ≠ [] →
  last (events_of run st)
  = Some (print_call ("::debug title=Total Reviewer Set::"
                      +:+ str.join ", " l)).
Proof.
  intros run Hl Hne.
  destruct (get_reviewers_for_range_trace run_cmd run_python_script
              ws mf range_start range_end st)
    as [(ret & out & line & _ & _ & Hnil & _)
       |(listing & commits & evs & finished & Hl' & Hevs & _ & _)].
  { fold run in Hnil. congruence. }
  fold run in Hl', Hevs. cbv zeta in Hl', Hevs.
  rewrite Hl in Hl'. destruct finished; [|by simplify_eq].
  injection Hl' as ->. by rewrite Hevs, !app_assoc, last_snoc.
Qed.

(** X7.  With a maintainer tool whose answer depends on the commit alone,
    the result after a successful listing is a function of the listed
    commits: empty when the answer for one of them is given up on, else the
    trimmed tokens of all answers, each at its first place. *)
Theorem resolution_by_commits ws mf range_start range_end st out w
  (tool : string → Z * string) :
  (∀ c w', (run_python_script mf ("-g " +:+ c) ws w').1 = tool c) →
  range_start ≠ range_end →
  run_cmd "git"
    ("log --format=format:%H " +:+ range_start +:+ ".." +:+ range_end)
    ws (world st) = ((0%Z, out), w) →
  (get_reviewers_for_range run_cmd run_python_script
     ws mf range_start range_end st).1
  = Return (resolve tool (str.splitlines out)).
Proof.
  intros Htool Hrange Hgit.
  rewrite (get_reviewers_for_range_listed _ _ _ _ _ _ _ Hrange Hgit).
  unfold reviewers_of_commits, mbind, M_bind, resolve.
  generalize (str.splitlines out) as commits.
  match goal with |- context [for_commit_sha _ _ _ _ _ ?st1] =>
    generalize st1 end.
  intros st1 commits.
  enough (∀ raw st2, ∃ st',
             for_commit_sha run_python_script ws mf commits raw st2
             = (Return (if existsb (λ c, gives_up (tool c)) commits
                        then Returned []
                        else Fallthrough
                               (raw ++ (c ← commits; re.findall (tool c).2))),
                st')) as Hloop.
  { destruct (Hloop [] st1) as [st' ->].
    by destruct (existsb _ commits). }
  clear st1. induction commits as [|c commits IH]; intros raw st2.
  { exists st2. cbn. by rewrite app_nil_r. }
  rewrite for_commit_sha_cons, Htool. cbv zeta. cbn [existsb].
  unfold gives_up at 1.
  case_bool_decide as Hret; [by eexists|].
  case_bool_decide as Hout; [by eexists|]. cbn [orb].
  match goal with |- context [for_commit_sha _ _ _ _ ?raw' ?st3] =>
    destruct (IH raw' st3) as [st' ->] end.
  exists st'. destruct (existsb _ commits); [done|].
  csimpl. by rewrite app_assoc.
Qed.

End ReviewerExtras.

(** ** Further properties of the requests *)

Section HttpExtras.

Context {World : Type}.
Variable http_get : string → headers → World → Response * World.
Variable http_post : string → json → headers → World → Response * World.
Variable repr : json → string.

(** X8.  A comment is one POST to the comments of the issue, with the text
    as the member body; a client or server error status is raised as
    [HTTPError], any other status returns; nothing is printed. *)
Theorem leave_pr_comment_outcome
  token owner repo pr_number comment_body st response w :
  let url := "https://api.github.com/repos/" +:+ owner +:+ "/" +:+ repo
             +:+ "/issues/" +:+ pr_number +:+ "/comments" in
  http_post url (JObj [("body", JStr comment_body)]) (api_headers token)
    (world st) = (response, w) →
  leave_pr_comment http_post token owner repo pr_number comment_body st
  = (if bool_decide (400 ≤ status_code response < 600)%Z
     then Raise HTTPError else Return (),
     mkState w (store st)
       (trace st
        ++ [requests_post_call url (JObj [("body", JStr comment_body)])
              (api_headers token) response])).
Proof.
  intros url Hpost. unfold leave_pr_comment. fold url.
  unfold mbind, M_bind, requests_post. rewrite Hpost.
  unfold raise_for_status. by case_bool_decide.
Qed.

(** X9.  A response without an error status whose body is not JSON, is not
    an object, or is an object without the member merge_commit_sha: the
    call raises [JSONDecodeError], [TypeError], resp. [KeyError]; it does
    not return the empty string, and nothing is printed. *)
Theorem get_pr_sha_malformed_body token owner repo pr_number st response w :
  let url := "https://api.github.com/repos/" +:+ owner +:+ "/" +:+ repo
             +:+ "/pulls/" +:+ pr_number in
  http_get url (api_headers token) (world st) = (response, w) →
  ¬ (400 ≤ status_code response < 600)%Z →
  (∀ members, json_body response = Some (JObj members) →
              member "merge_commit_sha" members = None) →
  get_pr_sha http_get repr token owner repo pr_number st
  = (Raise match json_body response with
           | None => JSONDecodeError
           | Some (JObj _) => KeyError
           | Some _ => TypeError
           end,
     mkState w (store st)
       (trace st ++ [requests_get_call url (api_headers token) response])).
Proof.
  intros url Hget Hok Hmissing. unfold get_pr_sha. fold url.
  unfold mbind, M_bind, requests_get. rewrite Hget.
  unfold try_except_HTTPError, raise_for_status, mbind, M_bind.
  rewrite bool_decide_eq_false_2 by done. cbn [mret M_ret].
  unfold response_json. destruct (json_body response) as [[]|]; try done.
  cbn [mret M_ret getitem]. by rewrite (Hmissing _ eq_refl).
Qed.

(** X10.  On success the commit is printed before it is returned: the
    trace gains the request and one line with the number of the pull
    request and the commit. *)
Theorem get_pr_sha_prints_commit
  token owner repo pr_number st response w members sha :
  let url := "https://api.github.com/repos/" +:+ owner +:+ "/" +:+ repo
             +:+ "/pulls/" +:+ pr_number in
  http_get url (api_headers token) (world st) = (response, w) →
  ¬ (400 ≤ status_code response < 600)%Z →
  json_body response = Some (JObj members) →
  member "merge_commit_sha" members = Some (JStr sha) →
  get_pr_sha http_get repr token owner repo pr_number st
  = (Return (JStr sha),
     mkState w (store st)
       (trace st
        ++ [requests_get_call url (api_headers token) response;
            print_call ("::debug title=PR " +:+ pr_number
                        +:+ " Commit SHA::" +:+ sha)])).
Proof.
  intros url Hget Hok Hbody Hsha. unfold get_pr_sha. fold url.
  unfold mbind, M_bind, requests_get. rewrite Hget.
  unfold try_except_HTTPError, raise_for_status, mbind, M_bind.
  rewrite bool_decide_eq_false_2 by done. cbn [mret M_ret].
  unfold response_json. rewrite Hbody. cbn [mret M_ret getitem].
  rewrite Hsha. unfold print, emit. cbn. by rewrite <-app_assoc.
Qed.

(** X11.  The lookup of the author answered with a status other than 200:
    one line with the reason is printed and the call returns; no reviewer
    is requested and the list of candidates is as it was. *)
Theorem author_lookup_refused
  token owner repo pr_number user_names st response w :
  let pr_author_url := "https://api.github.com/repos/" +:+ owner +:+ "/"
                       +:+ repo +:+ "/pulls/" +:+ pr_number in
  http_get pr_author_url (api_headers token) (world st) = (response, w) →
  status_code response ≠ 200%Z →
  add_reviewers_to_pr http_get http_post repr
    token owner repo pr_number user_names st
  = (Return (),
     mkState w (store st)
       (trace st
        ++ [requests_get_call pr_author_url (api_headers token) response;
            print_call ("::error title=HTTP Error!::Error getting PR author: "
                        +:+ reason response)])).
Proof.
  intros pr_author_url Hget Hstatus. unfold add_reviewers_to_pr.
  fold pr_author_url. unfold mbind, M_bind, requests_get. rewrite Hget.
  rewrite bool_decide_eq_true_2 by done. unfold print, emit. cbn.
  by rewrite <-app_assoc.
Qed.

(** X12.  The lookup answered with 200 but without the login of an author
    (no JSON, no member user, no member login): the call raises before any
    reviewer is requested, and the list of candidates is as it was. *)
Theorem author_lookup_malformed
  token owner repo pr_number user_names st response w :
  let pr_author_url := "https://api.github.com/repos/" +:+ owner +:+ "/"
                       +:+ repo +:+ "/pulls/" +:+ pr_number in
  http_get pr_author_url (api_headers token) (world st) = (response, w) →
  status_code response = 200%Z →
  (json_body response = None
   ∨ (∃ members, json_body response = Some (JObj members)
                 ∧ member "user" members = None)
   ∨ (∃ members user_members,
         json_body response = Some (JObj members)
         ∧ member "user" members = Some (JObj user_members)
         ∧ member "login" user_members = None)) →
  add_reviewers_to_pr http_get http_post repr
    token owner repo pr_number user_names st
  = (Raise match json_body response with
           | Some _ => AttributeError
           | None => JSONDecodeError
           end,
     mkState w (store st)
       (trace st
        ++ [requests_get_call pr_author_url (api_headers token) response])).
Proof.
  intros pr_author_url Hget Hstatus Hbad. unfold add_reviewers_to_pr.
  fold pr_author_url. unfold mbind, M_bind, requests_get. rewrite Hget.
  rewrite Hstatus, (bool_decide_eq_false_2 (200%Z ≠ 200%Z)) by (by intros ?).
  unfold response_json.
  destruct Hbad as [->|[(ms & -> & Huser)|(ms & ums & -> & Huser & Hlogin)]].
  - done.
  - cbn [mret M_ret get]. by rewrite Huser.
  - cbn [mret M_ret get]. rewrite Huser. cbn [default from_option id get].
    by rewrite Hlogin.
Qed.

(** Once the author is known and the request for reviewers is answered,
    what is left is the check of the answer. *)
Lemma add_reviewers_to_pr_requested
  token owner repo pr_number user_names st names response w
  members user_members login answer w2 :
  let pr_author_url := "https://api.github.com/repos/" +:+ owner +:+ "/"
                       +:+ repo +:+ "/pulls/" +:+ pr_number in
  let url := "https://api.github.com/repos/" +:+ owner +:+ "/" +:+ repo
             +:+ "/pulls/" +:+ pr_number +:+ "/requested_reviewers" in
  let reviewers := filter (λ u, u ≠ str.strip login) names in
  let data := JObj [("reviewers", JArr (JStr <$> reviewers))] in
  store st !! user_names = Some names →
  http_get pr_author_url (api_headers token) (world st) = (response, w) →
  status_code response = 200%Z →
  json_body response = Some (JObj members) →
  member "user" members = Some (JObj user_members) →
  member "login" user_members = Some (JStr login) →
  http_post url data (api_headers token) w = (answer, w2) →
  add_reviewers_to_pr http_get http_post repr
    token owner repo pr_number user_names st
  = try_except_HTTPError (raise_for_status answer)
      (request_failed http_post repr token owner repo pr_number user_names
         answer)
      (mkState w2 (<[user_names := reviewers]> (store st))
         (trace st
          ++ [requests_get_call pr_author_url (api_headers token) response;
              requests_post_call url data (api_headers token) answer])).
Proof.
  intros pr_author_url url reviewers data
    Hnames Hget Hstatus Hbody Huser Hlogin Hpost.
  unfold add_reviewers_to_pr. fold pr_author_url. fold url.
  unfold mbind, M_bind, requests_get. rewrite Hget.
  rewrite Hstatus, (bool_decide_eq_false_2 (200%Z ≠ 200%Z)) by (by intros ?).
  unfold response_json. rewrite Hbody. cbn [mret M_ret get].
  rewrite Huser. cbn [default from_option id get]. rewrite Hlogin.
  cbn [default from_option id strip mret M_ret].
  erewrite while_in_remove_run; [|exact Hnames].
  unfold deref. cbn [store emit world trace].
  rewrite lookup_total_insert_eq. fold reviewers. fold data.
  unfold requests_post at 1. cbn [world]. rewrite Hpost.
  unfold emit. cbn [fst snd trace store world]. by rewrite <-app_assoc.
Qed.

(** X13.  An author who is not among the candidates: the list object is
    left as it was, and the request carries the candidates as they are. *)
Theorem absent_author_keeps_list
  token owner repo pr_number user_names st names response w
  members user_members login :
  let pr_author_url := "https://api.github.com/repos/" +:+ owner +:+ "/"
                       +:+ repo +:+ "/pulls/" +:+ pr_number in
  let url := "https://api.github.com/repos/" +:+ owner +:+ "/" +:+ repo
             +:+ "/pulls/" +:+ pr_number +:+ "/requested_reviewers" in
  store st !! user_names = Some names →
  http_get pr_author_url (api_headers token) (world st) = (response, w) →
  status_code response = 200%Z →
  json_body response = Some (JObj members) →
  member "user" members = Some (JObj user_members) →
  member "login" user_members = Some (JStr login) →
  str.strip login ∉ names →
  let run := add_reviewers_to_pr http_get http_post repr
               token owner repo pr_number user_names in
  store (run st).2 = store st
  ∧ ∃ answer rest,
      events_of run st
      = requests_get_call pr_author_url (api_headers token) response
        :: requests_post_call url (JObj [("reviewers", JArr (JStr <$> names))])
             (api_headers token) answer
        :: rest.
Proof.
  intros pr_author_url url Hnames Hget Hstatus Hbody Huser Hlogin Habsent run.
  destruct (add_reviewers_to_pr_run http_get http_post repr
              token owner repo pr_number user_names
              st names response w members user_members login
              Hnames Hget Hstatus Hbody Huser Hlogin)
    as (o & st' & answer & rest & Hrun & Htr & Hst & _).
  rewrite filter_absent in Htr, Hst by done. subst run. split.
  - rewrite Hrun. cbn [snd]. rewrite Hst. by apply insert_id.
  - exists answer, rest. apply events_of_app. by rewrite Hrun.
Qed.

Section Requested.

Variables (token owner repo pr_number : string) (user_names : loc).
Variables (st : state World) (names : list string).
Variables (response answer : Response) (w w2 : World).
Variables (members user_members : list (string * json)) (login : string).

(** The author is found, and the request for reviewers is answered. *)
Hypothesis candidates : store st !! user_names = Some names.
Hypothesis lookup :
  http_get
    ("https://api.github.com/repos/" +:+ owner +:+ "/" +:+ repo
     +:+ "/pulls/" +:+ pr_number)
    (api_headers token) (world st) = (response, w).
Hypothesis lookup_ok : status_code response = 200%Z.
Hypothesis lookup_body : json_body response = Some (JObj members).
Hypothesis lookup_user : member "user" members = Some (JObj user_members).
Hypothesis lookup_login : member "login" user_members = Some (JStr login).
Hypothesis request :
  http_post
    ("https://api.github.com/repos/" +:+ owner +:+ "/" +:+ repo
     +:+ "/pulls/" +:+ pr_number +:+ "/requested_reviewers")
    (JObj [("reviewers", JArr (JStr <$> filter (λ u, u ≠ str.strip login) names))])
    (api_headers token) w = (answer, w2).

Lemma run_requested :
  add_reviewers_to_pr http_get http_post repr
    token owner repo pr_number user_names st
  = try_except_HTTPError (raise_for_status answer)
      (request_failed http_post repr token owner repo pr_number user_names
         answer)
      (mkState w2 (<[user_names := filter (λ u, u ≠ str.strip login) names]> (store st))
         (trace st
          ++ [requests_get_call
                ("https://api.github.com/repos/" +:+ owner +:+ "/" +:+ repo
                 +:+ "/pulls/" +:+ pr_number)
                (api_headers token) response;
              requests_post_call
                ("https://api.github.com/repos/" +:+ owner +:+ "/" +:+ repo
                 +:+ "/pulls/" +:+ pr_number +:+ "/requested_reviewers")
                (JObj [("reviewers",
                        JArr (JStr <$> filter (λ u, u ≠ str.strip login) names))])
                (api_headers token) answer])).
Proof.
  by apply (add_reviewers_to_pr_requested token owner repo pr_number
              user_names st names response w members user_members login
              answer w2).
Qed.

(** X14.  Unless the answer to the request has status 422 the call returns
    with nothing more done: also an answer with another client or server
    error status is neither printed nor raised. *)
Theorem request_without_422_returns :
  status_code answer ≠ 422%Z →
  add_reviewers_to_pr http_get http_post repr
    token owner repo pr_number user_names st
  = (Return (),
     (mkState w2 (<[user_names := filter (λ u, u ≠ str.strip login) names]> (store st))
        (trace st
         ++ [requests_get_call
               ("https://api.github.com/repos/" +:+ owner +:+ "/" +:+ repo
                +:+ "/pulls/" +:+ pr_number)
               (api_headers token) response;
             requests_post_call
               ("https://api.github.com/repos/" +:+ owner +:+ "/" +:+ repo
                +:+ "/pulls/" +:+ pr_number +:+ "/requested_reviewers")
               (JObj [("reviewers",
                       JArr (JStr <$> filter (λ u, u ≠ str.strip login) names))])
               (api_headers token) answer]))).
Proof.
  intros Hstatus. rewrite run_requested.
  unfold try_except_HTTPError, raise_for_status.
  case_bool_decide; [|done]. unfold raise, request_failed, mbind, M_bind.
  by rewrite !bool_decide_eq_false_2.
Qed.

(** X15.  An answer with status 422 whose message says that reviews may
    only be requested from collaborators: the message is printed, and a
    comment is left on the pull request that ends with the requested
    reviewers, the author not among them; the call raises [HTTPError] when
    the comment is answered with a client or server error status and
    returns otherwise. *)
Theorem not_a_collaborator_leaves_comment ms msg commented w3 :
  let comment :=
    "&#9888; **WARNING: Cannot add reviewers**: A user specified as a "
    +:+ "reviewer for this PR is not a collaborator "
    +:+ "of the edk2 repository. Please add them as a collaborator to the "
    +:+ "repository and re-request the review." +:+ LF +:+ LF
    +:+ "Users requested:" +:+ LF
    +:+ str.join ", " (filter (λ u, u ≠ str.strip login) names) in
  let comments_url :=
    "https://api.github.com/repos/" +:+ owner +:+ "/" +:+ repo
    +:+ "/issues/" +:+ pr_number +:+ "/comments" in
  let requested :=
    (mkState w2 (<[user_names := filter (λ u, u ≠ str.strip login) names]> (store st))
       (trace st
        ++ [requests_get_call
              ("https://api.github.com/repos/" +:+ owner +:+ "/" +:+ repo
               +:+ "/pulls/" +:+ pr_number)
              (api_headers token) response;
            requests_post_call
              ("https://api.github.com/repos/" +:+ owner +:+ "/" +:+ repo
               +:+ "/pulls/" +:+ pr_number +:+ "/requested_reviewers")
              (JObj [("reviewers",
                      JArr (JStr <$> filter (λ u, u ≠ str.strip login) names))])
              (api_headers token) answer])) in
  status_code answer = 422%Z →
  json_body answer = Some (JObj ms) →
  member "message" ms = Some (JStr msg) →
  str.contains "Reviews may only be requested from collaborators" msg = true →
  http_post comments_url (JObj [("body", JStr comment)]) (api_headers token) w2
  = (commented, w3) →
  add_reviewers_to_pr http_get http_post repr
    token owner repo pr_number user_names st
  = (if bool_decide (400 ≤ status_code commented < 600)%Z
     then Raise HTTPError else Return (),
     mkState w3 (store requested)
       (trace requested
        ++ [print_call ("::error title=User is not a Collaborator!::" +:+ msg);
            requests_post_call comments_url (JObj [("body", JStr comment)])
              (api_headers token) commented])).
Proof.
  intros comment comments_url requested Hstatus Hbody Hmsg Hhas Hpost.
  rewrite run_requested. unfold try_except_HTTPError, raise_for_status.
  rewrite Hstatus, bool_decide_eq_true_2 by lia.
  unfold raise, request_failed, mbind, M_bind.
  rewrite Hstatus, (bool_decide_eq_true_2 (422%Z = 422%Z)) by done.
  unfold response_json. rewrite Hbody. cbn [mret M_ret get].
  rewrite Hmsg. cbn [default from_option id contains mret M_ret].
  rewrite Hhas. cbn [format print deref emit store trace world].
  unfold leave_pr_comment, mbind, M_bind, requests_post.
  subst requested. cbn [store trace world]. rewrite lookup_total_insert_eq.
  fold comment. fold comments_url. unfold emit. cbn [store trace world].
  rewrite Hpost. unfold raise_for_status.
  rewrite <-!app_assoc. by case_bool_decide.
Qed.

(** X16.  An answer with status 422 and another message: one line about
    the invalid request is printed, and the call returns. *)
Theorem invalid_request_is_printed ms msg :
  let requested :=
    (mkState w2 (<[user_names := filter (λ u, u ≠ str.strip login) names]> (store st))
       (trace st
        ++ [requests_get_call
              ("https://api.github.com/repos/" +:+ owner +:+ "/" +:+ repo
               +:+ "/pulls/" +:+ pr_number)
              (api_headers token) response;
            requests_post_call
              ("https://api.github.com/repos/" +:+ owner +:+ "/" +:+ repo
               +:+ "/pulls/" +:+ pr_number +:+ "/requested_reviewers")
              (JObj [("reviewers",
                      JArr (JStr <$> filter (λ u, u ≠ str.strip login) names))])
              (api_headers token) answer])) in
  status_code answer = 422%Z →
  json_body answer = Some (JObj ms) →
  member "message" ms = Some (JStr msg) →
  str.contains "Reviews may only be requested from collaborators" msg = false →
  add_reviewers_to_pr http_get http_post repr
    token owner repo pr_number user_names st
  = (Return (),
     mkState w2 (store requested)
       (trace requested
        ++ [print_call ("::error title=Invalid Request!::"
                        +:+ "The request is invalid. "
                        +:+ "Verify the API request string.")])).
Proof.
  intros requested Hstatus Hbody Hmsg Hhas.
  rewrite run_requested. unfold try_except_HTTPError, raise_for_status.
  rewrite Hstatus, bool_decide_eq_true_2 by lia.
  unfold raise, request_failed, mbind, M_bind.
  rewrite Hstatus, (bool_decide_eq_true_2 (422%Z = 422%Z)) by done.
  unfold response_json. rewrite Hbody. cbn [mret M_ret get].
  rewrite Hmsg. cbn [default from_option id contains mret M_ret].
  by rewrite Hhas.
Qed.

(** X17.  An answer with status 422 whose body is not JSON, or is an object
    without a message: the check of the message raises [JSONDecodeError],
    resp. [TypeError], out of the call. *)
Theorem error_422_without_message :
  status_code answer = 422%Z →
  (json_body answer = None
   ∨ ∃ ms, json_body answer = Some (JObj ms) ∧ member "message" ms = None) →
  add_reviewers_to_pr http_get http_post repr
    token owner repo pr_number user_names st
  = (Raise match json_body answer with
           | Some _ => TypeError
           | None => JSONDecodeError
           end,
     (mkState w2 (<[user_names := filter (λ u, u ≠ str.strip login) names]> (store st))
        (trace st
         ++ [requests_get_call
               ("https://api.github.com/repos/" +:+ owner +:+ "/" +:+ repo
                +:+ "/pulls/" +:+ pr_number)
               (api_headers token) response;
             requests_post_call
               ("https://api.github.com/repos/" +:+ owner +:+ "/" +:+ repo
                +:+ "/pulls/" +:+ pr_number +:+ "/requested_reviewers")
               (JObj [("reviewers",
                       JArr (JStr <$> filter (λ u, u ≠ str.strip login) names))])
               (api_headers token) answer]))).
Proof.
  intros Hstatus Hbad.
  rewrite run_requested. unfold try_except_HTTPError, raise_for_status.
  rewrite Hstatus, bool_decide_eq_true_2 by lia.
  unfold raise, request_failed, mbind, M_bind.
  rewrite Hstatus, (bool_decide_eq_true_2 (422%Z = 422%Z)) by done.
  unfold response_json. destruct Hbad as [->|(ms & -> & Hmsg)]; [done|].
  cbn [mret M_ret get]. by rewrite Hmsg.
Qed.

End Requested.

End HttpExtras.

(** ** Properties of the download *)

Section DownloadExtras.

Context {World : Type}.
Variable http_get : string → headers → World → Response * World.
Variable text : Response → string.

(** X18.  A download answered with a client or server error status prints
    one line with the address and the reason and returns; no file is
    written, so a file already at the path keeps its text. *)
Theorem download_error_keeps_files github_url local_path token d response w :
  http_get github_url (download_headers token) (world (process d))
  = (response, w) →
  (400 ≤ status_code response < 600)%Z →
  download_gh_file http_get text github_url local_path token d
  = (Return (),
     mkDisk
       (mkState w (store (process d))
          (trace (process d)
           ++ [requests_get_call github_url (download_headers token) response;
               print_call ("::error title=HTTP Error!::Error downloading "
                           +:+ github_url +:+ ": " +:+ reason response)]))
       (files d)).
Proof.
  intros Hget Herr. unfold download_gh_file, mbind, M_bind, requests_get.
  rewrite Hget. unfold try_except_HTTPError, raise_for_status, mbind, M_bind.
  rewrite bool_decide_eq_true_2 by done. unfold raise, print, emit. cbn.
  by rewrite <-app_assoc.
Qed.



End DownloadExtras.

(** ** The further properties on scripted runs *)

Lemma lookup_failure_is_reported_witness :
  (get_reviewers_for_range Scripted.run_cmd Scripted.run_python_script
     "ws" "GetMaintainer.py" "master" "HEAD" Runs.second_commit_fails).1
  = Return []
  ∧ last (events_of
            (get_reviewers_for_range Scripted.run_cmd
               Scripted.run_python_script
               "ws" "GetMaintainer.py" "master" "HEAD")
            Runs.second_commit_fails)
    = Some (print_call (lookup_error_line 2 "Traceback"))
  ∧ last (script_calls
            (events_of
               (get_reviewers_for_range Scripted.run_cmd
                  Scripted.run_python_script
                  "ws" "GetMaintainer.py" "master" "HEAD")
               Runs.second_commit_fails))
    = Some (mkInvocation "-g B" 2 "Traceback").
Proof.
  apply (lookup_failure_is_reported Scripted.run_cmd
           Scripted.run_python_script "ws" "GetMaintainer.py" "master" "HEAD"
           Runs.second_commit_fails (mkInvocation "-g B" 2 "Traceback")).
  - vm_compute. repeat constructor.
  - discriminate.
Defined.

Lemma empty_listing_witness :
  get_reviewers_for_range Scripted.run_cmd Scripted.run_python_script
    "ws" "GetMaintainer.py" "master" "HEAD"
    (Scripted.initial (Scripted.mkWorld [(0%Z, EmptyString)] [] []) ∅)
  = (Return [],
     mkState (Scripted.mkWorld [] [] []) ∅
       [RunCmd_call "git" "log --format=format:%H master..HEAD" "ws" 0
          EmptyString;
        print_call "::debug title=Total Reviewer Set::"]).
Proof.
  apply (empty_listing Scripted.run_cmd Scripted.run_python_script
           "ws" "GetMaintainer.py" "master" "HEAD"
           (Scripted.initial (Scripted.mkWorld [(0%Z, EmptyString)] [] []) ∅)
           EmptyString (Scripted.mkWorld [] [] [])).
  - discriminate.
  - reflexivity.
  - reflexivity.
Defined.

Lemma tool_runs_follow_listing_witness :
  inv_params
    <$> script_calls
          (events_of
             (get_reviewers_for_range Scripted.run_cmd
                Scripted.run_python_script
                "ws" "GetMaintainer.py" "master" "HEAD")
             Runs.two_commits)
    `prefix_of` (λ c, "-g " +:+ c) <$> str.splitlines ("A" +:+ LF +:+ "B")
  ∧ ((get_reviewers_for_range Scripted.run_cmd Scripted.run_python_script
        "ws" "GetMaintainer.py" "master" "HEAD" Runs.two_commits).1
     ≠ Return [] →
     inv_params
       <$> script_calls
             (events_of
                (get_reviewers_for_range Scripted.run_cmd
                   Scripted.run_python_script
                   "ws" "GetMaintainer.py" "master" "HEAD")
                Runs.two_commits)
     = (λ c, "-g " +:+ c) <$> str.splitlines ("A" +:+ LF +:+ "B")).
Proof.
  apply (tool_runs_follow_listing Scripted.run_cmd Scripted.run_python_script
           "ws" "GetMaintainer.py" "master" "HEAD" Runs.two_commits
           ("A" +:+ LF +:+ "B")
           (Scripted.mkWorld []
              [(0%Z, "Reviewed-by: [alice] [bob]");
               (0%Z, "Reviewed-by: [bob] [carol]")] [])).
  - discriminate.
  - reflexivity.
Defined.

Lemma reviewers_are_trimmed_witness :
  str.strip "bob" = "bob"
  ∧ all_chars not_closing_bracket "bob" = true
  ∧ all_chars not_line_feed "bob" = true.
Proof.
  apply (reviewers_are_trimmed Fixed.run_cmd Fixed.run_python_script
           "ws" "GetMaintainer.py" "master" "HEAD" Fixed.initial
           ["alice"; "bob"; "carol"] "bob").
  - reflexivity.
  - vm_compute. repeat constructor.
Defined.

Lemma total_line_reports_result_witness :
  last (events_of
          (get_reviewers_for_range Scripted.run_cmd Scripted.run_python_script
             "ws" "GetMaintainer.py" "master" "HEAD")
          Runs.two_commits)
  = Some (print_call ("::debug title=Total Reviewer Set::"
                      +:+ str.join ", " ["alice"; "bob"; "carol"])).
Proof.
  apply (total_line_reports_result Scripted.run_cmd Scripted.run_python_script
           "ws" "GetMaintainer.py" "master" "HEAD" Runs.two_commits
           ["alice"; "bob"; "carol"]).
  - reflexivity.
  - discriminate.
Defined.

Lemma resolution_by_commits_witness :
  (get_reviewers_for_range Fixed.run_cmd Fixed.run_python_script
     "ws" "GetMaintainer.py" "master" "HEAD" Fixed.initial).1
  = Return (resolve Fixed.tool (str.splitlines ("A" +:+ LF +:+ "B"))).
Proof.
  apply (resolution_by_commits Fixed.run_cmd Fixed.run_python_script
           "ws" "GetMaintainer.py" "master" "HEAD" Fixed.initial
           ("A" +:+ LF +:+ "B") () Fixed.tool).
  - intros c w'. reflexivity.
  - discriminate.
  - reflexivity.
Defined.

Lemma leave_pr_comment_outcome_witness :
  (leave_pr_comment Scripted.http_post "token" "tianocore" "edk2" "1" "hello"
     (Runs.answers [Requests.forbidden])).1
  = Raise HTTPError.
Proof.
  exact (f_equal fst
           (leave_pr_comment_outcome Scripted.http_post
              "token" "tianocore" "edk2" "1" "hello"
              (Runs.answers [Requests.forbidden]) Requests.forbidden
              (Scripted.mkWorld [] [] []) eq_refl)).
Defined.

Lemma get_pr_sha_malformed_body_witness :
  (Scripted.get_pr_sha "token" "tianocore" "edk2" "1"
     (Runs.answers [Requests.no_user])).1
  = Raise KeyError.
Proof.
  refine (f_equal fst
            (get_pr_sha_malformed_body Scripted.http_get Scripted.repr
               "token" "tianocore" "edk2" "1"
               (Runs.answers [Requests.no_user]) Requests.no_user
               (Scripted.mkWorld [] [] []) eq_refl _ _)).
  - cbn. lia.
  - intros members [= <-]. reflexivity.
Defined.

Lemma get_pr_sha_prints_commit_witness :
  Scripted.get_pr_sha "token" "tianocore" "edk2" "1"
    (Runs.answers [Runs.pull_request])
  = (Return (JStr "0c5a1f3"),
     mkState (Scripted.mkWorld [] [] []) ∅
       [requests_get_call "https://api.github.com/repos/tianocore/edk2/pulls/1"
          (api_headers "token") Runs.pull_request;
        print_call "::debug title=PR 1 Commit SHA::0c5a1f3"]).
Proof.
  refine (get_pr_sha_prints_commit Scripted.http_get Scripted.repr
            "token" "tianocore" "edk2" "1"
            (Runs.answers [Runs.pull_request]) Runs.pull_request
            (Scripted.mkWorld [] [] [])
            [("merge_commit_sha", JStr "0c5a1f3");
             ("user", JObj [("login", JStr "bob")])] "0c5a1f3"
            eq_refl _ eq_refl eq_refl).
  cbn. lia.
Defined.

Lemma author_lookup_refused_witness :
  Scripted.add_reviewers_to_pr "token" "tianocore" "edk2" "1" 1%positive
    (Requests.start [Requests.forbidden])
  = (Return (),
     mkState (Scripted.mkWorld [] [] [])
       {[ 1%positive := ["alice"; "bob"; "carol"; "bob"] ]}
       [requests_get_call "https://api.github.com/repos/tianocore/edk2/pulls/1"
          (api_headers "token") Requests.forbidden;
        print_call
          "::error title=HTTP Error!::Error getting PR author: Forbidden"]).
Proof.
  apply (author_lookup_refused Scripted.http_get Scripted.http_post
           Scripted.repr "token" "tianocore" "edk2" "1" 1%positive
           (Requests.start [Requests.forbidden]) Requests.forbidden
           (Scripted.mkWorld [] [] [])).
  - reflexivity.
  - discriminate.
Defined.

Lemma author_lookup_malformed_witness :
  Scripted.add_reviewers_to_pr "token" "tianocore" "edk2" "1" 1%positive
    (Requests.start [Requests.no_user])
  = (Raise AttributeError,
     mkState (Scripted.mkWorld [] [] [])
       {[ 1%positive := ["alice"; "bob"; "carol"; "bob"] ]}
       [requests_get_call "https://api.github.com/repos/tianocore/edk2/pulls/1"
          (api_headers "token") Requests.no_user]).
Proof.
  apply (author_lookup_malformed Scripted.http_get Scripted.http_post
           Scripted.repr "token" "tianocore" "edk2" "1" 1%positive
           (Requests.start [Requests.no_user]) Requests.no_user
           (Scripted.mkWorld [] [] [])).
  - reflexivity.
  - reflexivity.
  - right. left. exists []. split; reflexivity.
Defined.

Lemma absent_author_keeps_list_witness :
  store (Scripted.add_reviewers_to_pr "token" "tianocore" "edk2" "1" 1%positive
           (Requests.start
              [mkResponse 200 "OK"
                 (Some (JObj [("user", JObj [("login", JStr "dave")])]));
               Requests.created])).2
  = {[ 1%positive := ["alice"; "bob"; "carol"; "bob"] ]}.
Proof.
  refine (proj1
            (absent_author_keeps_list Scripted.http_get Scripted.http_post
               Scripted.repr "token" "tianocore" "edk2" "1" 1%positive
               (Requests.start
                  [mkResponse 200 "OK"
                     (Some (JObj [("user", JObj [("login", JStr "dave")])]));
                   Requests.created])
               ["alice"; "bob"; "carol"; "bob"]
               (mkResponse 200 "OK"
                  (Some (JObj [("user", JObj [("login", JStr "dave")])])))
               (Scripted.mkWorld [] [] [Requests.created])
               [("user", JObj [("login", JStr "dave")])]
               [("login", JStr "dave")] "dave"
               eq_refl eq_refl eq_refl eq_refl eq_refl eq_refl _)).
  apply (bool_decide_unpack _). vm_compute. exact I.
Defined.

Lemma request_without_422_returns_witness :
  (Scripted.add_reviewers_to_pr "token" "tianocore" "edk2" "1" 1%positive
     (Requests.start [Requests.author; Requests.forbidden])).1
  = Return ().
Proof.
  refine (f_equal fst
            (request_without_422_returns Scripted.http_get Scripted.http_post
               Scripted.repr "token" "tianocore" "edk2" "1" 1%positive
               (Requests.start [Requests.author; Requests.forbidden])
               ["alice"; "bob"; "carol"; "bob"]
               Requests.author Requests.forbidden
               (Scripted.mkWorld [] [] [Requests.forbidden])
               (Scripted.mkWorld [] [] [])
               [("user", JObj [("login", JStr " bob ")])]
               [("login", JStr " bob ")] " bob "
               eq_refl eq_refl eq_refl eq_refl eq_refl eq_refl eq_refl _)).
  discriminate.
Defined.

Lemma not_a_collaborator_leaves_comment_witness :
  (Scripted.add_reviewers_to_pr "token" "tianocore" "edk2" "1" 1%positive
     (Requests.start
        [Requests.author; Requests.not_collaborator; Requests.forbidden])).1
  = Raise HTTPError.
Proof.
  exact (f_equal fst
           (not_a_collaborator_leaves_comment Scripted.http_get
              Scripted.http_post
              Scripted.repr "token" "tianocore" "edk2" "1" 1%positive
              (Requests.start
                 [Requests.author; Requests.not_collaborator;
                  Requests.forbidden])
              ["alice"; "bob"; "carol"; "bob"]
              Requests.author Requests.not_collaborator
              (Scripted.mkWorld [] []
                 [Requests.not_collaborator; Requests.forbidden])
              (Scripted.mkWorld [] [] [Requests.forbidden])
              [("user", JObj [("login", JStr " bob ")])]
              [("login", JStr " bob ")] " bob "
              eq_refl eq_refl eq_refl eq_refl eq_refl eq_refl eq_refl
              [("message",
                JStr "Reviews may only be requested from collaborators.")]
              "Reviews may only be requested from collaborators."
              Requests.forbidden (Scripted.mkWorld [] [] [])
              eq_refl eq_refl eq_refl eq_refl eq_refl)).
Defined.

Lemma invalid_request_is_printed_witness :
  printed
    (trace (Scripted.add_reviewers_to_pr "token" "tianocore" "edk2" "1"
              1%positive
              (Requests.start [Requests.author; Requests.invalid])).2)
  = ["::error title=Invalid Request!::The request is invalid. "
     +:+ "Verify the API request string."].
Proof.
  exact (f_equal (λ r, printed (trace r.2))
           (invalid_request_is_printed Scripted.http_get Scripted.http_post
              Scripted.repr "token" "tianocore" "edk2" "1" 1%positive
              (Requests.start [Requests.author; Requests.invalid])
              ["alice"; "bob"; "carol"; "bob"]
              Requests.author Requests.invalid
              (Scripted.mkWorld [] [] [Requests.invalid])
              (Scripted.mkWorld [] [] [])
              [("user", JObj [("login", JStr " bob ")])]
              [("login", JStr " bob ")] " bob "
              eq_refl eq_refl eq_refl eq_refl eq_refl eq_refl eq_refl
              [("message", JStr "Validation Failed")] "Validation Failed"
              eq_refl eq_refl eq_refl eq_refl)).
Defined.

Lemma error_422_without_message_witness :
  (Scripted.add_reviewers_to_pr "token" "tianocore" "edk2" "1" 1%positive
     (Requests.start [Requests.author; Requests.no_message])).1
  = Raise TypeError.
Proof.
  refine (f_equal fst
            (error_422_without_message Scripted.http_get Scripted.http_post
               Scripted.repr "token" "tianocore" "edk2" "1" 1%positive
               (Requests.start [Requests.author; Requests.no_message])
               ["alice"; "bob"; "carol"; "bob"]
               Requests.author Requests.no_message
               (Scripted.mkWorld [] [] [Requests.no_message])
               (Scripted.mkWorld [] [] [])
               [("user", JObj [("login", JStr " bob ")])]
               [("login", JStr " bob ")] " bob "
               eq_refl eq_refl eq_refl eq_refl eq_refl eq_refl eq_refl
               eq_refl _)).
  right. exists []. split; reflexivity.
Defined.

Lemma download_error_keeps_files_witness :
  files (Downloads.download_gh_file "https://raw.example/Maintainers.txt"
           "Maintainers.txt" None (Downloads.start [Downloads.missing])).2
  !! "Maintainers.txt"
  = Some "old text".
Proof.
  refine (f_equal (λ r, files r.2 !! "Maintainers.txt")
            (download_error_keeps_files Scripted.http_get Downloads.text
               "https://raw.example/Maintainers.txt" "Maintainers.txt" None
               (Downloads.start [Downloads.missing]) Downloads.missing
               (Scripted.mkWorld [] [] []) eq_refl _)).
  cbn. lia.
Defined.

